(** * College Digital Application Management System: the application workflow

    A shallow embedding of [main.py] and [schemas.py]: the request handlers
    that submit an application, act on it, read its timeline and manage
    departments, over a model of the document store they talk to.

    Handlers are functions in a state-and-exception monad over a [World]:
    the module-level [db] handle (absent when the database is not
    configured) and the list of write requests issued so far.  An exception
    leaves the writes made before it in place, as in the source, where no
    transaction wraps a handler. *)

From Stdlib Require Import ZArith NArith Lia Ascii String.
From Stdlib Require Import Sorting.Sorted Sorting.Permutation.
From stdpp Require Import gmap strings list fin_maps sorting.

Local Open Scope string_scope.
Local Open Scope list_scope.

(** ** BSON values and Python dictionaries *)

(** [ObjectId]: the 12-byte identifier of the store, as the number its
    bytes spell. *)
Definition ObjectId := N.

#[warnings="-register-all"]
Inductive value : Type :=
  | VNull
  | VBool (b : bool)
  | VStr (s : string)
  | VOid (o : ObjectId)
  | VDate (t : Z)
  | VArr (l : list value).

Fixpoint value_eqb (v w : value) {struct v} : bool :=
  match v, w with
  | VNull, VNull => true
  | VBool a, VBool b => Bool.eqb a b
  | VStr a, VStr b => String.eqb a b
  | VOid a, VOid b => N.eqb a b
  | VDate a, VDate b => Z.eqb a b
  | VArr l, VArr m =>
      (fix go (l : list value) (m : list value) {struct l} : bool :=
         match l, m with
         | [], [] => true
         | x :: l', y :: m' => value_eqb x y && go l' m'
         | _, _ => false
         end) l m
  | _, _ => false
  end.

(** A Python [dict] with string keys. *)
Abbreviation dict := (gmap string value).

(** [d.get(k, default)] *)
Definition dict_get (d : dict) (k : string) (default : value) : value :=
  match d !! k with
  | Some v => v
  | None => default
  end.

(** ** ObjectId and its hexadecimal spelling *)

Definition hex_digit (d : N) : ascii :=
  ascii_of_N (if (d <? 10)%N then 48 + d else 87 + d)%N.

Definition hex_digit_value (c : ascii) : option N :=
  let n := N_of_ascii c in
  if ((48 <=? n) && (n <=? 57))%N then Some (n - 48)%N
  else if ((97 <=? n) && (n <=? 102))%N then Some (n - 87)%N
  else if ((65 <=? n) && (n <=? 70))%N then Some (n - 55)%N
  else None.

(** The [k] low hexadecimal digits of [n], most significant first, put in
    front of [acc]. *)
Fixpoint hex_acc (k : nat) (n : N) (acc : string) : string :=
  match k with
  | O => acc
  | S k' => hex_acc k' (n / 16)%N (String (hex_digit (n mod 16)%N) acc)
  end.

Definition hex_width (n : N) : nat :=
  Nat.max 24 (S (N.to_nat (N.log2 n / 4))).

(** [str(oid)]: 24 lower-case hexadecimal digits.  (The width exceeds 24
    only for numbers that do not fit 12 bytes, which are no identifiers.) *)
Definition ObjectId_str (o : ObjectId) : string :=
  hex_acc (hex_width o) o "".

Fixpoint hex_value (s : string) (acc : N) : option N :=
  match s with
  | EmptyString => Some acc
  | String c s' =>
      match hex_digit_value c with
      | Some d => hex_value s' (16 * acc + d)%N
      | None => None
      end
  end.

(** [ObjectId(s)] for a string [s]: defined for 24 hexadecimal digits, of
    either case; [None] stands for [bson.errors.InvalidId]. *)
Definition ObjectId_of_str (s : string) : option ObjectId :=
  if (String.length s =? 24)%nat then hex_value s 0%N else None.

(** ** The document store *)

(** A stored document: the identifier the store gave it and its other
    fields.  The driver hands it to Python as the dictionary [as_dict]. *)
Record document : Type := Document {
  doc_id : ObjectId;
  doc_fields : dict
}.

Definition as_dict (doc : document) : dict :=
  <["_id" := VOid (doc_id doc)]> (doc_fields doc).

(** A query document [{k1: v1, ...}]: every listed key must match. *)
Definition query := list (string * value).

(** MongoDB's equality match: the field equals the queried value, or is an
    array that holds it. *)
Definition value_matches (q v : value) : bool :=
  value_eqb q v ||
  match v with
  | VArr l => existsb (value_eqb q) l
  | _ => false
  end.

Definition field_matches (d : dict) (kq : string * value) : bool :=
  match d !! kq.1 with
  | Some v => value_matches kq.2 v
  | None => value_eqb kq.2 VNull
  end.

Definition query_matches (q : query) (doc : document) : bool :=
  forallb (field_matches (as_dict doc)) q.

(** An update document [{"$set": {...}, "$push": {...}}]. *)
Record update : Type := Update {
  u_set : list (string * value);
  u_push : list (string * value)
}.

Definition apply_set (d : dict) (kv : string * value) : dict :=
  <[kv.1 := kv.2]> d.

(** [$push] appends to an array, creates it when the field is absent and is
    a write error on any other value. *)
Definition apply_push (od : option dict) (kv : string * value) : option dict :=
  match od with
  | None => None
  | Some d =>
      match d !! kv.1 with
      | None => Some (<[kv.1 := VArr [kv.2]]> d)
      | Some (VArr l) => Some (<[kv.1 := VArr (l ++ [kv.2])]> d)
      | Some _ => None
      end
  end.

Definition apply_update (u : update) (doc : document) : option document :=
  match fold_left apply_push (u_push u)
          (Some (fold_left apply_set (u_set u) (doc_fields doc))) with
  | Some d => Some (Document (doc_id doc) d)
  | None => None
  end.

(** The first document matching [q] is replaced by its update; [None] when
    the update of that document is a write error. *)
Fixpoint update_first (q : query) (u : update) (l : list document)
  : option (list document) :=
  match l with
  | [] => Some []
  | doc :: l' =>
      if query_matches q doc then
        match apply_update u doc with
        | Some doc' => Some (doc' :: l')
        | None => None
        end
      else
        match update_first q u l' with
        | Some l'' => Some (doc :: l'')
        | None => None
        end
  end.

Record Database : Type := Db {
  collections : gmap string (list document);
  next_oid : ObjectId
}.

(** [db[name]]: a collection that was never written to is empty. *)
Definition collection (st : Database) (name : string) : list document :=
  match collections st !! name with
  | Some l => l
  | None => []
  end.

Definition set_collection (st : Database) (name : string) (l : list document)
  : Database :=
  Db (<[name := l]> (collections st)) (next_oid st).

(** [db[name].find(q)], in insertion order. *)
Definition find (st : Database) (name : string) (q : query) : list document :=
  filter (fun doc => query_matches q doc = true) (collection st name).

(** [db[name].find_one(q)] *)
Definition find_one (st : Database) (name : string) (q : query)
  : option document :=
  head (find st name q).

(** [db[name].insert_one(d)], for a dictionary without [_id]: the store
    generates the identifier. *)
Definition insert_one (st : Database) (name : string) (d : dict)
  : ObjectId * Database :=
  let o := next_oid st in
  (o, Db (<[name := collection st name ++ [Document o d]]> (collections st))
         (o + 1)%N).

(** [db[name].update_one(q, u)] *)
Definition update_one (st : Database) (name : string) (q : query) (u : update)
  : option Database :=
  match update_first q u (collection st name) with
  | Some l => Some (set_collection st name l)
  | None => None
  end.

(** ** Entity schemas ([schemas.py]) *)

(** Each [Literal[...]] of the schemas is an enumeration; [to_str] gives the
    string that is stored, [of_str] is the validation of a string against
    the literal. *)

Module DepartmentType.
Inductive t : Type := academic | administrative.
Definition to_str (x : t) : string :=
  match x with academic => "academic" | administrative => "administrative" end.
End DepartmentType.

Module Role.
Inductive t : Type :=
  student | coordinator | hod | registrar | admin | superadmin.
Definition all : list t :=
  [student; coordinator; hod; registrar; admin; superadmin].
Definition to_str (x : t) : string :=
  match x with
  | student => "student" | coordinator => "coordinator" | hod => "hod"
  | registrar => "registrar" | admin => "admin" | superadmin => "superadmin"
  end.
Definition of_str (s : string) : option t :=
  List.find (fun x => String.eqb (to_str x) s) all.
End Role.

Module Category.
Inductive t : Type :=
  bonafide_certificate | leave_request | lab_access | project_approval
| general.
Definition to_str (x : t) : string :=
  match x with
  | bonafide_certificate => "bonafide_certificate"
  | leave_request => "leave_request" | lab_access => "lab_access"
  | project_approval => "project_approval" | general => "general"
  end.
End Category.

Module Status.
Inductive t : Type :=
  submitted | under_review | approved | rejected | forwarded.
Definition to_str (x : t) : string :=
  match x with
  | submitted => "submitted" | under_review => "under_review"
  | approved => "approved" | rejected => "rejected"
  | forwarded => "forwarded"
  end.
End Status.

Module Stage.
Inductive t : Type := coordinator | hod | registrar | admin.
Definition to_str (x : t) : string :=
  match x with
  | coordinator => "coordinator" | hod => "hod"
  | registrar => "registrar" | admin => "admin"
  end.
End Stage.

Module Action.
Inductive t : Type := submit | review | forward | approve | reject | comment.
Definition all : list t := [submit; review; forward; approve; reject; comment].
Definition to_str (x : t) : string :=
  match x with
  | submit => "submit" | review => "review" | forward => "forward"
  | approve => "approve" | reject => "reject" | comment => "comment"
  end.
Definition of_str (s : string) : option t :=
  List.find (fun x => String.eqb (to_str x) s) all.
End Action.

Module Department.
Record t : Type := mk {
  name : string;
  code : string;
  type : DepartmentType.t;
  is_active : bool
}.
End Department.

(** A validated [Application] payload.  The three workflow fields are
    ordinary fields of the schema: a request may carry them, and a request
    that omits them gets "submitted", "coordinator" and the empty list. *)
Module Application.
Record t : Type := mk {
  student_id : string;
  student_name : string;
  student_email : string;
  department_code : string;
  category : Category.t;
  title : string;
  description : string;
  attachments : list string;
  status : Status.t;
  current_stage : Stage.t;
  route_history : list string
}.
End Application.

Module StatusUpdate.
Record t : Type := mk {
  application_id : string;
  actor_role : Role.t;
  actor_name : string;
  action : Action.t;
  comments : option string;
  to_department : option string;
  created_at : option Z
}.
End StatusUpdate.

(** The request body of the action endpoint ([main.py]): role and action
    are plain strings here. *)
Module ReviewAction.
Record t : Type := mk {
  actor_role : string;
  actor_name : string;
  action : string;
  comments : option string;
  to_department : option string
}.
End ReviewAction.

Inductive entity : Type :=
  | EDepartment (d : Department.t)
  | EApplication (a : Application.t)
  | EStatusUpdate (s : StatusUpdate.t).

(** ** Exceptions, the world and the handler monad *)

Inductive exn : Type :=
  | HTTPException (status_code : Z) (detail : string)
  | InvalidId (oid : string)
  | ValidationError (loc : list string)
  | TypeError
  | WriteError
  | Unavailable.

(** The status the framework answers with: an [HTTPException] carries its
    own, anything else that escapes a handler is a server error. *)
Definition http_status (e : exn) : Z :=
  match e with
  | HTTPException c _ => c
  | _ => 500%Z
  end.

Inductive Result (A : Type) : Type :=
  | Ok (a : A)
  | Raise (e : exn).
Arguments Ok {A} a.
Arguments Raise {A} e.

(** A write request a handler sends to the persistence layer. *)
Inductive db_call : Type :=
  | CreateDocument (collection_name : string) (data : entity)
  | UpdateOne (collection_name : string) (q : query) (u : update).

Record World : Type := mkWorld {
  db : option Database;
  requests : list db_call
}.

Definition M (A : Type) : Type := World -> Result A * World.

Definition ret {A} (a : A) : M A := fun w => (Ok a, w).
Definition raise {A} (e : exn) : M A := fun w => (Raise e, w).
Definition bind {A B} (m : M A) (k : A -> M B) : M B :=
  fun w =>
    match m w with
    | (Ok a, w') => k a w'
    | (Raise e, w') => (Raise e, w')
    end.

Notation "'let!' x ':=' m 'in' k" := (bind m (fun x => k))
  (at level 10, x pattern, m at level 100, k at level 200).

(** A pure computation that may raise. *)
Definition of_result {A} (r : Result A) : M A := fun w => (r, w).

(** The value of the global [db]. *)
Definition read_db : M (option Database) := fun w => (Ok (db w), w).

(** [ObjectId(s)] *)
Definition ObjectId_new (s : string) : M ObjectId :=
  match ObjectId_of_str s with
  | Some o => ret o
  | None => raise (InvalidId s)
  end.

(** [db[name].find_one(q)]; subscripting [None] is a [TypeError]. *)
Definition db_find_one (name : string) (q : query) : M (option document) :=
  fun w =>
    match db w with
    | None => (Raise TypeError, w)
    | Some st => (Ok (find_one st name q), w)
    end.

(** [db[name].update_one(q, u)] *)
Definition db_update_one (name : string) (q : query) (u : update) : M unit :=
  fun w =>
    let rs := requests w ++ [UpdateOne name q u] in
    match db w with
    | None => (Raise TypeError, mkWorld None rs)
    | Some st =>
        match update_one st name q u with
        | Some st' => (Ok tt, mkWorld (Some st') rs)
        | None => (Raise WriteError, mkWorld (Some st) rs)
        end
    end.

(** ** The document store adapter *)

Definition opt_field (k : string) (o : option value) (d : dict) : dict :=
  match o with
  | Some v => <[k := v]> d
  | None => d
  end.

(** Modelled from the spec: the serialization done by [create_document] of
    the module [database], which is not part of the sources.  The entity is
    written field by field under the schema's names, an optional field
    that is unset ([None]) being left out. *)
Definition serialize (e : entity) : dict :=
  match e with
  | EDepartment d =>
      <["name" := VStr (Department.name d)]>
      (<["code" := VStr (Department.code d)]>
      (<["type" := VStr (DepartmentType.to_str (Department.type d))]>
      (<["is_active" := VBool (Department.is_active d)]> ∅)))
  | EApplication a =>
      <["student_id" := VStr (Application.student_id a)]>
      (<["student_name" := VStr (Application.student_name a)]>
      (<["student_email" := VStr (Application.student_email a)]>
      (<["department_code" := VStr (Application.department_code a)]>
      (<["category" := VStr (Category.to_str (Application.category a))]>
      (<["title" := VStr (Application.title a)]>
      (<["description" := VStr (Application.description a)]>
      (<["attachments" := VArr (VStr <$> Application.attachments a)]>
      (<["status" := VStr (Status.to_str (Application.status a))]>
      (<["current_stage" := VStr (Stage.to_str (Application.current_stage a))]>
      (<["route_history" := VArr (VStr <$> Application.route_history a)]>
         ∅))))))))))
  | EStatusUpdate s =>
      <["application_id" := VStr (StatusUpdate.application_id s)]>
      (<["actor_role" := VStr (Role.to_str (StatusUpdate.actor_role s))]>
      (<["actor_name" := VStr (StatusUpdate.actor_name s)]>
      (<["action" := VStr (Action.to_str (StatusUpdate.action s))]>
      (opt_field "comments" (VStr <$> StatusUpdate.comments s)
      (opt_field "to_department" (VStr <$> StatusUpdate.to_department s)
      (opt_field "created_at" (VDate <$> StatusUpdate.created_at s) ∅))))))
  end.

(** Modelled from the spec: [create_document(collection_name, data)] of the
    module [database]: serializes the entity, inserts it into the named
    collection and returns the identifier the store generated, as a string.
    Without a database it fails (an unchecked failure, a server error). *)
Definition create_document (collection_name : string) (data : entity)
  : M string :=
  fun w =>
    let rs := requests w ++ [CreateDocument collection_name data] in
    match db w with
    | None => (Raise Unavailable, mkWorld None rs)
    | Some st =>
        let '(o, st') := insert_one st collection_name (serialize data) in
        (Ok (ObjectId_str o), mkWorld (Some st') rs)
    end.

(** Modelled from the spec: [get_documents(collection_name, filter)] of the
    module [database]: the documents of the collection that match the
    filter exactly.  The renaming of the identifier that the spec lists
    under this operation is what [to_public] of [main.py] does to every
    document returned here, so the documents are returned as stored. *)
Definition get_documents (collection_name : string) (filt : query)
  : M (list document) :=
  fun w =>
    match db w with
    | None => (Raise Unavailable, w)
    | Some st => (Ok (find st collection_name filt), w)
    end.

(** ** Request handlers ([main.py]) *)

(** [to_public(doc)].  [doc.pop("_id")] is the identifier, an [ObjectId],
    and [str] of it its hexadecimal spelling.  A document read from the
    store has its [_id], so the guard [if not doc] never fires on one. *)
Definition to_public (doc : document) : dict :=
  let d := as_dict doc in
  if decide (dom d = (∅ : gset string)) then d
  else <["id" := VStr (ObjectId_str (doc_id doc))]> (delete "_id" d).

(** [POST /departments] *)
Definition create_department (dept : Department.t) : M dict :=
  let! inserted_id := create_document "department" (EDepartment dept) in
  ret (<["id" := VStr inserted_id]> ∅).

(** [GET /departments] *)
Definition list_departments : M (list dict) :=
  let! docs := get_documents "department" [] in
  ret (to_public <$> docs).

(** [StatusUpdate(...)]: the two [Literal] fields are validated, the other
    arguments are strings already.  A keyword that the caller leaves out
    takes the schema default, [None]. *)
Definition StatusUpdate_new (application_id actor_role actor_name action : string)
    (comments to_department : option string) (created_at : option Z)
  : Result StatusUpdate.t :=
  match Role.of_str actor_role, Action.of_str action with
  | Some r, Some a =>
      Ok (StatusUpdate.mk application_id r actor_name a comments
            to_department created_at)
  | None, Some _ => Raise (ValidationError ["actor_role"])
  | Some _, None => Raise (ValidationError ["action"])
  | None, None => Raise (ValidationError ["actor_role"; "action"])
  end.

(** [POST /applications] *)
Definition submit_application (app_data : Application.t) : M dict :=
  let! inserted_id := create_document "application" (EApplication app_data) in
  (* Initial status update; to_department and created_at are not passed *)
  let! su := of_result
               (StatusUpdate_new inserted_id "student"
                  (Application.student_name app_data) "submit"
                  (Some "Application submitted") None None) in
  let! _ := create_document "statusupdate" (EStatusUpdate su) in
  ret (<["id" := VStr inserted_id]> (<["status" := VStr "submitted"]> ∅)).

(** [s or v] for an optional string [s]: [None] and the empty string are
    false. *)
Definition str_or (s : option string) (v : value) : value :=
  match s with
  | None => v
  | Some "" => v
  | Some s => VStr s
  end.

(** [POST /applications/{app_id}/action] *)
Definition act_on_application (app_id : string) (action : ReviewAction.t)
  : M dict :=
  let! d := read_db in
  match d with
  | None => raise (HTTPException 500 "Database not available")
  | Some _ =>
  (* validate app exists *)
  let! oid := ObjectId_new app_id in
  let! found := db_find_one "application" [("_id", VOid oid)] in
  match found with
  | None => raise (HTTPException 404 "Application not found")
  | Some doc =>  (* a document that was found has its _id: it is not empty *)
  (* Update status based on action *)
  let new_status := dict_get (as_dict doc) "status" (VStr "submitted") in
  let current_stage :=
    dict_get (as_dict doc) "current_stage" (VStr "coordinator") in
  let! (new_status, current_stage) :=
    if String.eqb (ReviewAction.action action) "forward" then
      let new_status := VStr "forwarded" in
      let current_stage :=
        str_or (ReviewAction.to_department action) current_stage in
      let! oid := ObjectId_new app_id in
      let! _ := db_update_one "application" [("_id", VOid oid)]
                  (Update [("status", new_status);
                           ("current_stage", current_stage)]
                          [("route_history", current_stage)]) in
      ret (new_status, current_stage)
    else if String.eqb (ReviewAction.action action) "approve" then
      let new_status := VStr "approved" in
      let! oid := ObjectId_new app_id in
      let! _ := db_update_one "application" [("_id", VOid oid)]
                  (Update [("status", new_status)] []) in
      ret (new_status, current_stage)
    else if String.eqb (ReviewAction.action action) "reject" then
      let new_status := VStr "rejected" in
      let! oid := ObjectId_new app_id in
      let! _ := db_update_one "application" [("_id", VOid oid)]
                  (Update [("status", new_status)] []) in
      ret (new_status, current_stage)
    else
      let new_status := VStr "under_review" in
      let! oid := ObjectId_new app_id in
      let! _ := db_update_one "application" [("_id", VOid oid)]
                  (Update [("status", new_status)] []) in
      ret (new_status, current_stage) in
  (* Log status update; created_at is not passed *)
  let! su := of_result
               (StatusUpdate_new app_id
                  (ReviewAction.actor_role action)
                  (ReviewAction.actor_name action)
                  (ReviewAction.action action) (ReviewAction.comments action)
                  (ReviewAction.to_department action) None) in
  let! _ := create_document "statusupdate" (EStatusUpdate su) in
  ret (<["id" := VStr app_id]>
       (<["status" := new_status]>
       (<["current_stage" := current_stage]> ∅)))
  end
  end.

(** *** The timeline *)

Section Timeline.

(** The order in which the store compares the values of a sort key, an
    absent field being [None]. *)
Variable bson_leb : option value -> option value -> bool.

Definition sort_key (k : string) (doc : document) : option value :=
  as_dict doc !! k.

Fixpoint insert_by (k : string) (x : document) (l : list document)
  : list document :=
  match l with
  | [] => [x]
  | y :: l' =>
      if bson_leb (sort_key k x) (sort_key k y) then x :: y :: l'
      else y :: insert_by k x l'
  end.

(** [cursor.sort(k, 1)]: ascending by the key; documents with equal keys
    stay in the order they were found. *)
Definition cursor_sort (k : string) (l : list document) : list document :=
  foldr (insert_by k) [] l.

(** [GET /applications/{app_id}/timeline] *)
Definition get_timeline (app_id : string) : M (list dict) :=
  let! d := read_db in
  match d with
  | None => raise (HTTPException 500 "Database not available")
  | Some st =>
      let docs :=
        cursor_sort "created_at"
          (find st "statusupdate" [("application_id", VStr app_id)]) in
      ret (to_public <$> docs)
  end.

End Timeline.


(** An order for the sort keys this system has: instants, an absent or
    other key going before every instant. *)
Definition instant (o : option value) : option Z :=
  match o with
  | Some (VDate t) => Some t
  | _ => None
  end.

Definition instant_leb (a b : option value) : bool :=
  match instant a, instant b with
  | None, _ => true
  | Some _, None => false
  | Some s, Some t => (s <=? t)%Z
  end.

(** ** Summaries used in the statements *)

(** What the four branches of [act_on_application] come to, for the stage
    read from the document: the new status, the stage that is answered and
    the update that is sent ([act_on_application_found] below proves it). *)
Definition stage_update (action : ReviewAction.t) (current_stage : value)
  : value * value * update :=
  if String.eqb (ReviewAction.action action) "forward" then
    let cs := str_or (ReviewAction.to_department action) current_stage in
    (VStr "forwarded", cs,
     Update [("status", VStr "forwarded"); ("current_stage", cs)]
            [("route_history", cs)])
  else if String.eqb (ReviewAction.action action) "approve" then
    (VStr "approved", current_stage, Update [("status", VStr "approved")] [])
  else if String.eqb (ReviewAction.action action) "reject" then
    (VStr "rejected", current_stage, Update [("status", VStr "rejected")] [])
  else
    (VStr "under_review", current_stage,
     Update [("status", VStr "under_review")] []).

(** The application an identifier refers to, if the database is there, the
    identifier is well formed and a document has it. *)
Definition stored_application (w : World) (app_id : string) : option document :=
  match db w, ObjectId_of_str app_id with
  | Some st, Some oid => find_one st "application" [("_id", VOid oid)]
  | _, _ => None
  end.

Definition application_field (w : World) (app_id k : string) : option value :=
  match stored_application w app_id with
  | Some doc => doc_fields doc !! k
  | None => None
  end.

(** The status updates stored for an identifier. *)
Definition stored_updates (w : World) (app_id : string) : list document :=
  match db w with
  | Some st => find st "statusupdate" [("application_id", VStr app_id)]
  | None => []
  end.

(** ** Invariants of the store *)

(** Every identifier in the store was generated by it. *)
Definition ids_generated (st : Database) : Prop :=
  forall name,
    Forall (fun d => (doc_id d < next_oid st)%N) (collection st name).

(** Every status update names, in hexadecimal, an identifier that the
    store has generated already. *)
Definition updates_refer_to_past (st : Database) : Prop :=
  Forall (fun d => exists s o,
            doc_fields d !! "application_id" = Some (VStr s) /\
            hex_value s 0 = Some o /\ (o < next_oid st)%N)
         (collection st "statusupdate").

Definition store_inv (st : Database) : Prop :=
  ids_generated st /\ updates_refer_to_past st.

(** The status update that [submit_application] builds for the identifier
    it got. *)
Definition submit_update (app_data : Application.t) (inserted_id : string)
  : StatusUpdate.t :=
  StatusUpdate.mk inserted_id Role.student
    (Application.student_name app_data) Action.submit
    (Some "Application submitted") None None.

(** The requests of the interface, and the worlds that a sequence of them
    leads to from an empty database. *)
Inductive request : Type :=
  | CreateDepartment (dept : Department.t)
  | ListDepartments
  | SubmitApplication (app_data : Application.t)
  | ActOnApplication (app_id : string) (action : ReviewAction.t)
  | GetTimeline (app_id : string).

Definition handle (leb : option value -> option value -> bool)
    (w : World) (r : request) : World :=
  match r with
  | CreateDepartment dept => (create_department dept w).2
  | ListDepartments => (list_departments w).2
  | SubmitApplication app_data => (submit_application app_data w).2
  | ActOnApplication app_id action => (act_on_application app_id action w).2
  | GetTimeline app_id => (get_timeline leb app_id w).2
  end.

Definition serve (leb : option value -> option value -> bool)
    (w : World) (rs : list request) : World :=
  foldl (handle leb) w rs.

(** ** Write requests of a handler *)

(** [emits P Q m]: whatever the world, [m] only adds write requests to it,
    each of them satisfying [P], and a value it returns satisfies [Q]. *)
Definition emits {A} (P : db_call -> Prop) (Q : A -> Prop) (m : M A) : Prop :=
  forall w,
    (exists new, requests (m w).2 = requests w ++ new /\ Forall P new) /\
    (forall a, (m w).1 = Ok a -> Q a).

(** A write request that gives no creation time: a status update handed to
    the adapter has [created_at] unset, and an update of a stored document
    neither sets nor pushes a [created_at]. *)
Definition sets_no_created_at (c : db_call) : Prop :=
  match c with
  | CreateDocument _ (EStatusUpdate su) => StatusUpdate.created_at su = None
  | CreateDocument _ _ => True
  | UpdateOne _ _ u =>
      Forall (fun kv => kv.1 <> "created_at") (u_set u ++ u_push u)
  end.

(** ** Sample data *)

Definition empty_world : World := mkWorld (Some (Db ∅ 0%N)) [].

Definition leave_S1 : Application.t :=
  Application.mk "S1" "Ann" "ann@college.example" "CSE"
    Category.leave_request "Leave" "Two days of leave" []
    Status.submitted Stage.coordinator [].

(** The same request with the workflow fields filled in by the client. *)
Definition leave_S1_preapproved : Application.t :=
  Application.mk "S1" "Ann" "ann@college.example" "CSE"
    Category.leave_request "Leave" "Two days of leave" []
    Status.approved Stage.admin ["hod"].

(** The world after [leave_S1] was submitted to an empty database; the
    application got the first identifier. *)
Definition world_S1 : World := (submit_application leave_S1 empty_world).2.
Definition id_S1 : string := "000000000000000000000000".
Definition doc_S1 : document := Document 0%N (serialize (EApplication leave_S1)).

(** The database of [world_S1]: that application and the status update of
    its submission. *)
Definition db_S1 : Database :=
  (insert_one
     (insert_one (Db ∅ 0%N) "application" (serialize (EApplication leave_S1))).2
     "statusupdate"
     (serialize (EStatusUpdate (submit_update leave_S1 id_S1)))).2.

Definition forward_blank : ReviewAction.t :=
  ReviewAction.mk "coordinator" "Bob" "forward" None (Some "").
Definition forward_hod : ReviewAction.t :=
  ReviewAction.mk "coordinator" "Bob" "forward" None (Some "hod").
Definition approve_by_hod : ReviewAction.t :=
  ReviewAction.mk "hod" "Carol" "approve" (Some "fine") None.
Definition approve_by_dean : ReviewAction.t :=
  ReviewAction.mk "dean" "Dan" "approve" None None.
Definition escalate : ReviewAction.t :=
  ReviewAction.mk "coordinator" "Bob" "escalate" None None.
Definition review : ReviewAction.t :=
  ReviewAction.mk "coordinator" "Bob" "review" None None.

Definition cse : Department.t :=
  Department.mk "Computer Science" "CSE" DepartmentType.academic true.

(** A database whose status updates carry creation times, stored out of
    order; three of them are for [id_S1]. *)
Definition dated_update (o : ObjectId) (app_id action : string) (t : Z)
  : document :=
  Document o
    (<["application_id" := VStr app_id]>
     (<["action" := VStr action]> (<["created_at" := VDate t]> ∅))).

Definition dated_db : Database :=
  Db (<["statusupdate" :=
          [dated_update 1%N id_S1 "approve" 30;
           dated_update 2%N "000000000000000000000009" "submit" 5;
           dated_update 3%N id_S1 "submit" 10;
           dated_update 4%N id_S1 "forward" 20]]> ∅) 5%N.

(** ** The other listing endpoints ([main.py]) *)

(** [if s: filt[k] = s] for an optional string [s]: [None] and the empty
    string are false, and the filter is left as it is. *)
Definition filter_on (k : string) (s : option string) (filt : query) : query :=
  match s with
  | None => filt
  | Some "" => filt
  | Some s => filt ++ [(k, VStr s)]
  end.

(** [GET /users] *)
Definition list_users : M (list dict) :=
  let! docs := get_documents "user" [] in
  ret (to_public <$> docs).

(** [GET /applications] *)
Definition list_applications
    (student_id department_code status category : option string)
  : M (list dict) :=
  let filt := [] in
  let filt := filter_on "student_id" student_id filt in
  let filt := filter_on "department_code" department_code filt in
  let filt := filter_on "status" status filt in
  let filt := filter_on "category" category filt in
  let! docs := get_documents "application" filt in
  ret (to_public <$> docs).

(** [GET /notifications] *)
Definition list_notifications (user_email : option string) : M (list dict) :=
  let filt :=
    match user_email with
    | None => []
    | Some "" => []
    | Some s => [("user_email", VStr s)]
    end in
  let! docs := get_documents "notification" filt in
  ret (to_public <$> docs).

(** ** How a database may change *)

(** [evolves st st']: identifiers are still generated past the old ones;
    every collection but the applications has only got documents appended;
    every application is still there under its identifier, its route
    history extended at the end and its fields other than status,
    current_stage and route_history as they were. *)
Definition workflow_fields : list string :=
  ["status"; "current_stage"; "route_history"].

Definition application_evolves (doc doc' : document) : Prop :=
  doc_id doc' = doc_id doc /\
  (forall h, doc_fields doc !! "route_history" = Some (VArr h) ->
             exists h', doc_fields doc' !! "route_history" = Some (VArr h') /\
                        h `prefix_of` h') /\
  (forall k, ~ In k workflow_fields ->
             doc_fields doc' !! k = doc_fields doc !! k).

Definition evolves (st st' : Database) : Prop :=
  (next_oid st <= next_oid st')%N /\
  (forall name, name <> "application" ->
                collection st name `prefix_of` collection st' name) /\
  (forall oid doc,
     find_one st "application" [("_id", VOid oid)] = Some doc ->
     exists doc',
       find_one st' "application" [("_id", VOid oid)] = Some doc' /\
       application_evolves doc doc').

(** ** The paths of a call *)

(** The paths of [act_on_application], one by one. *)
Inductive act_path (app_id : string) (action : ReviewAction.t) (w : World)
  : Result dict * World -> Prop :=
  | path_unavailable :
      db w = None ->
      act_path app_id action w
        (Raise (HTTPException 500 "Database not available"), w)
  | path_invalid st :
      db w = Some st -> ObjectId_of_str app_id = None ->
      act_path app_id action w (Raise (InvalidId app_id), w)
  | path_not_found st oid :
      db w = Some st -> ObjectId_of_str app_id = Some oid ->
      find_one st "application" [("_id", VOid oid)] = None ->
      act_path app_id action w
        (Raise (HTTPException 404 "Application not found"), w)
  | path_write_error st oid doc ns cs u :
      db w = Some st -> ObjectId_of_str app_id = Some oid ->
      find_one st "application" [("_id", VOid oid)] = Some doc ->
      stage_update action
        (dict_get (as_dict doc) "current_stage" (VStr "coordinator"))
      = (ns, cs, u) ->
      apply_update u doc = None ->
      act_path app_id action w
        (Raise WriteError,
         mkWorld (Some st)
           (requests w ++ [UpdateOne "application" [("_id", VOid oid)] u]))
  | path_rejected st oid doc ns cs u doc' st1 loc :
      db w = Some st -> ObjectId_of_str app_id = Some oid ->
      find_one st "application" [("_id", VOid oid)] = Some doc ->
      stage_update action
        (dict_get (as_dict doc) "current_stage" (VStr "coordinator"))
      = (ns, cs, u) ->
      apply_update u doc = Some doc' ->
      update_one st "application" [("_id", VOid oid)] u = Some st1 ->
      StatusUpdate_new app_id (ReviewAction.actor_role action)
        (ReviewAction.actor_name action) (ReviewAction.action action)
        (ReviewAction.comments action) (ReviewAction.to_department action)
        None = Raise (ValidationError loc) ->
      act_path app_id action w
        (Raise (ValidationError loc),
         mkWorld (Some st1)
           (requests w ++ [UpdateOne "application" [("_id", VOid oid)] u]))
  | path_done st oid doc ns cs u doc' st1 su :
      db w = Some st -> ObjectId_of_str app_id = Some oid ->
      find_one st "application" [("_id", VOid oid)] = Some doc ->
      stage_update action
        (dict_get (as_dict doc) "current_stage" (VStr "coordinator"))
      = (ns, cs, u) ->
      apply_update u doc = Some doc' ->
      update_one st "application" [("_id", VOid oid)] u = Some st1 ->
      StatusUpdate_new app_id (ReviewAction.actor_role action)
        (ReviewAction.actor_name action) (ReviewAction.action action)
        (ReviewAction.comments action) (ReviewAction.to_department action)
        None = Ok su ->
      act_path app_id action w
        (Ok (<["id" := VStr app_id]>
             (<["status" := ns]> (<["current_stage" := cs]> ∅))),
         mkWorld
           (Some (insert_one st1 "statusupdate"
                    (serialize (EStatusUpdate su))).2)
           (requests w
            ++ [UpdateOne "application" [("_id", VOid oid)] u;
                CreateDocument "statusupdate" (EStatusUpdate su)])).

(** ** Query parameters and public entries *)

(** An optional query parameter as the handlers read it: the empty string
    counts as absent. *)
Definition nonblank (s : option string) : option string :=
  match s with
  | Some "" => None
  | _ => s
  end.

(** What a listing may answer: entries that have an [id], the spelling of
    an identifier, and no [_id]; or the failure for want of a database. *)
Definition public_entries (r : Result (list dict)) : Prop :=
  match r with
  | Ok l =>
      Forall (fun e : dict =>
                e !! "_id" = None /\
                exists o, e !! "id" = Some (VStr (ObjectId_str o))) l
  | Raise e =>
      e = Unavailable \/ e = HTTPException 500 "Database not available"
  end.

(** * Properties *)

(** ** Hexadecimal spelling of identifiers *)

Lemma hex_digit_value_hex_digit (d : N) :
  (d < 16)%N -> hex_digit_value (hex_digit d) = Some d.
Proof.
  intros Hd.
  assert (Hcases : In d [0; 1; 2; 3; 4; 5; 6; 7; 8; 9; 10; 11; 12; 13; 14; 15]%N).
  { simpl. lia. }
  simpl in Hcases.
  repeat (destruct Hcases as [<- | Hcases]; [reflexivity |]).
  contradiction.
Qed.

Lemma hex_value_hex_acc (k : nat) :
  forall (n : N) (acc : string) (a : N),
    hex_value (hex_acc k n acc) a
    = hex_value acc (a * 16 ^ N.of_nat k + n mod 16 ^ N.of_nat k)%N.
Proof.
  induction k as [| k IH]; intros n acc a.
  - simpl. rewrite N.mod_1_r. f_equal. lia.
  - cbn [hex_acc]. rewrite IH. cbn [hex_value].
    rewrite hex_digit_value_hex_digit by (apply N.mod_lt; lia).
    f_equal.
    rewrite Nat2N.inj_succ, N.pow_succ_r'.
    rewrite (N.Div0.mod_mul_r n 16 (16 ^ N.of_nat k)).
    lia.
Qed.

Lemma hex_width_bound (n : N) : (n < 16 ^ N.of_nat (hex_width n))%N.
Proof.
  assert (Hle : (N.log2 n / 4 + 1 <= N.of_nat (hex_width n))%N).
  { unfold hex_width. lia. }
  assert (Hn : (n < 2 ^ (N.log2 n + 1))%N).
  { destruct (N.eq_dec n 0%N) as [-> | Hnz]; [reflexivity |].
    rewrite N.add_1_r. apply N.log2_spec. lia. }
  assert (H16 : forall e, (16 ^ e = 2 ^ (4 * e))%N).
  { intros e. rewrite N.pow_mul_r. reflexivity. }
  rewrite H16.
  eapply N.lt_le_trans; [exact Hn |].
  apply N.pow_le_mono_r; [lia |].
  pose proof (N.Div0.mod_eq (N.log2 n) 4) as Hm.
  pose proof (N.mod_lt (N.log2 n) 4) as Hlt.
  lia.
Qed.

(** Reading the spelling of an identifier back gives the identifier. *)
Lemma hex_value_ObjectId_str (o : ObjectId) :
  hex_value (ObjectId_str o) 0 = Some o.
Proof.
  unfold ObjectId_str. rewrite hex_value_hex_acc. cbn [hex_value].
  rewrite N.mod_small by apply hex_width_bound. reflexivity.
Qed.

Lemma ObjectId_str_inj (o1 o2 : ObjectId) :
  ObjectId_str o1 = ObjectId_str o2 -> o1 = o2.
Proof.
  intros H. pose proof (hex_value_ObjectId_str o1) as H1.
  rewrite H, hex_value_ObjectId_str in H1. congruence.
Qed.

Lemma ObjectId_of_str_spelling (o o' : ObjectId) :
  ObjectId_of_str (ObjectId_str o) = Some o' -> o' = o.
Proof.
  unfold ObjectId_of_str. destruct (_ =? _)%nat; [| discriminate].
  rewrite hex_value_ObjectId_str. congruence.
Qed.

(** ** The store *)

Lemma as_dict_id (doc : document) : as_dict doc !! "_id" = Some (VOid (doc_id doc)).
Proof. unfold as_dict. apply lookup_insert_eq. Qed.

Lemma as_dict_field (doc : document) (k : string) :
  k ≠ "_id" -> as_dict doc !! k = doc_fields doc !! k.
Proof. intros Hk. unfold as_dict. by rewrite lookup_insert_ne. Qed.

Lemma query_matches_id (o : ObjectId) (doc : document) :
  query_matches [("_id", VOid o)] doc = (o =? doc_id doc)%N.
Proof.
  unfold query_matches, field_matches. cbn [forallb fst snd].
  rewrite as_dict_id. unfold value_matches. cbn [value_eqb].
  rewrite orb_false_r, andb_true_r. reflexivity.
Qed.

Lemma head_filter_split {A} (P : A -> bool) (l : list A) (x : A) :
  head (filter (fun a => P a = true) l) = Some x ->
  exists l1 l2, l = l1 ++ x :: l2 /\ Forall (fun a => P a = false) l1 /\ P x = true.
Proof.
  induction l as [| a l IH]; [discriminate |].
  rewrite filter_cons. destruct (decide (P a = true)) as [Ha | Ha].
  - intros [= <-]. exists [], l. auto.
  - intros H. destruct (IH H) as (l1 & l2 & -> & Hl1 & Hx).
    exists (a :: l1), l2. split; [reflexivity |]. split; [| assumption].
    constructor; [| assumption]. by destruct (P a).
Qed.

Lemma head_filter_app {A} (P : A -> bool) (l1 l2 : list A) (x : A) :
  Forall (fun a => P a = false) l1 -> P x = true ->
  head (filter (fun a => P a = true) (l1 ++ x :: l2)) = Some x.
Proof.
  intros Hl1 Hx. induction Hl1 as [| a l1 Ha _ IH]; cbn [app].
  - rewrite filter_cons. by destruct (decide _).
  - rewrite filter_cons. destruct (decide _) as [Hc | _]; [congruence | exact IH].
Qed.

Lemma update_first_app (q : query) (u : update) (l1 l2 : list document) (doc : document) :
  Forall (fun d => query_matches q d = false) l1 ->
  query_matches q doc = true ->
  update_first q u (l1 ++ doc :: l2)
  = match apply_update u doc with
    | Some doc' => Some (l1 ++ doc' :: l2)
    | None => None
    end.
Proof.
  intros Hl1 Hdoc. induction Hl1 as [| a l1 Ha _ IH]; cbn [app update_first].
  - by rewrite Hdoc.
  - rewrite Ha, IH. by destruct (apply_update u doc).
Qed.

Lemma collection_set_eq st name l : collection (set_collection st name l) name = l.
Proof. unfold collection, set_collection. cbn [collections]. by rewrite lookup_insert_eq. Qed.

Lemma collection_set_ne st name name' l :
  name ≠ name' -> collection (set_collection st name l) name' = collection st name'.
Proof. intros H. unfold collection, set_collection. cbn [collections]. by rewrite lookup_insert_ne. Qed.

Lemma collection_insert_eq st name d :
  collection (insert_one st name d).2 name
  = collection st name ++ [Document (next_oid st) d].
Proof. unfold insert_one, collection at 1. cbn [snd collections]. by rewrite lookup_insert_eq. Qed.

Lemma collection_insert_ne st name name' d :
  name ≠ name' -> collection (insert_one st name d).2 name' = collection st name'.
Proof. intros H. unfold insert_one, collection. cbn [snd collections]. by rewrite lookup_insert_ne. Qed.

Lemma update_one_found st name q u doc :
  find_one st name q = Some doc ->
  exists l1 l2,
    collection st name = l1 ++ doc :: l2 /\
    Forall (fun d => query_matches q d = false) l1 /\
    query_matches q doc = true /\
    update_one st name q u
    = match apply_update u doc with
      | Some doc' => Some (set_collection st name (l1 ++ doc' :: l2))
      | None => None
      end.
Proof.
  unfold find_one, find. intros H.
  destruct (head_filter_split _ _ _ H) as (l1 & l2 & Hl & Hl1 & Hdoc).
  exists l1, l2. repeat split; try assumption.
  unfold update_one. rewrite Hl, update_first_app by assumption.
  by destruct (apply_update u doc).
Qed.

Lemma find_one_set_collection st name q l1 l2 doc :
  Forall (fun d => query_matches q d = false) l1 ->
  query_matches q doc = true ->
  find_one (set_collection st name (l1 ++ doc :: l2)) name q = Some doc.
Proof.
  intros Hl1 Hdoc. unfold find_one, find. rewrite collection_set_eq.
  by apply head_filter_app.
Qed.

Lemma apply_update_set_status doc v :
  apply_update (Update [("status", v)] []) doc
  = Some (Document (doc_id doc) (<["status" := v]> (doc_fields doc))).
Proof. reflexivity. Qed.

Lemma apply_update_forward doc s c h :
  doc_fields doc !! "route_history" = Some (VArr h) ->
  apply_update (Update [("status", s); ("current_stage", c)] [("route_history", c)]) doc
  = Some (Document (doc_id doc)
            (<["route_history" := VArr (h ++ [c])]>
             (<["current_stage" := c]> (<["status" := s]> (doc_fields doc))))).
Proof.
  intros Hh. unfold apply_update. cbn [u_set u_push fold_left apply_set apply_push fst snd doc_fields].
  unfold apply_set. cbn [fst snd].
  rewrite !lookup_insert_ne by done. rewrite Hh. reflexivity.
Qed.

Lemma act_on_application_found w st app_id action oid doc :
  db w = Some st ->
  ObjectId_of_str app_id = Some oid ->
  find_one st "application" [("_id", VOid oid)] = Some doc ->
  act_on_application app_id action w
  = let '(new_status, current_stage, u) :=
      stage_update action
        (dict_get (as_dict doc) "current_stage" (VStr "coordinator")) in
    let rs := requests w ++ [UpdateOne "application" [("_id", VOid oid)] u] in
    match update_one st "application" [("_id", VOid oid)] u with
    | None => (Raise WriteError, mkWorld (Some st) rs)
    | Some st1 =>
        match StatusUpdate_new app_id (ReviewAction.actor_role action)
                (ReviewAction.actor_name action) (ReviewAction.action action)
                (ReviewAction.comments action)
                (ReviewAction.to_department action) None with
        | Raise e => (Raise e, mkWorld (Some st1) rs)
        | Ok su =>
            (Ok (<["id" := VStr app_id]>
                 (<["status" := new_status]>
                 (<["current_stage" := current_stage]> ∅))),
             mkWorld
               (Some (insert_one st1 "statusupdate"
                        (serialize (EStatusUpdate su))).2)
               (rs ++ [CreateDocument "statusupdate" (EStatusUpdate su)]))
        end
    end.
Proof.
  intros Hdb Hoid Hfind. destruct w as [d rs]. cbn [db] in Hdb. subst d.
  unfold act_on_application, stage_update, bind, read_db, ObjectId_new,
    db_find_one, db_update_one, create_document, of_result, ret, raise.
  cbn [db requests]. rewrite Hoid. cbn [db requests]. rewrite Hfind.
  destruct (String.eqb (ReviewAction.action action) "forward");
    [| destruct (String.eqb (ReviewAction.action action) "approve");
       [| destruct (String.eqb (ReviewAction.action action) "reject")]];
    cbn [db requests];
    (destruct (update_one st _ _ _) as [st1 |]; [| reflexivity]);
    (destruct (StatusUpdate_new _ _ _ _ _ _ _) as [su | e]; [| reflexivity]);
    cbn [db requests]; unfold insert_one; reflexivity.
Qed.

Lemma apply_update_id u doc doc' :
  apply_update u doc = Some doc' -> doc_id doc' = doc_id doc.
Proof.
  unfold apply_update. destruct (fold_left _ _ _); [| discriminate].
  by intros [= <-].
Qed.

Lemma update_one_apply st name o u doc doc' :
  find_one st name [("_id", VOid o)] = Some doc ->
  apply_update u doc = Some doc' ->
  exists st1,
    update_one st name [("_id", VOid o)] u = Some st1 /\
    find_one st1 name [("_id", VOid o)] = Some doc' /\
    next_oid st1 = next_oid st /\
    (forall name', name ≠ name' -> collection st1 name' = collection st name').
Proof.
  intros Hfind Hupd.
  destruct (update_one_found st name _ u doc Hfind)
    as (l1 & l2 & Hl & Hl1 & Hdoc & Hrun).
  rewrite Hupd in Hrun. eexists. split; [exact Hrun |].
  split; [| split; [reflexivity |]].
  - apply find_one_set_collection; [assumption |].
    rewrite query_matches_id in *. by rewrite (apply_update_id _ _ _ Hupd).
  - intros name' Hne. by apply collection_set_ne.
Qed.

Lemma find_one_insert_ne st name name' d q :
  name ≠ name' ->
  find_one (insert_one st name d).2 name' q = find_one st name' q.
Proof. intros H. unfold find_one, find. by rewrite collection_insert_ne. Qed.

Lemma stored_application_inv w app_id doc :
  stored_application w app_id = Some doc ->
  exists st oid,
    db w = Some st /\ ObjectId_of_str app_id = Some oid /\
    find_one st "application" [("_id", VOid oid)] = Some doc.
Proof.
  unfold stored_application.
  destruct (db w) as [st |]; [| discriminate].
  destruct (ObjectId_of_str app_id) as [oid |]; [| discriminate].
  eauto.
Qed.

(** The application after a call on an existing application: the document
    with the update of the branch applied to it, whether or not the status
    update that follows is accepted. *)
Lemma act_on_application_stored w app_id action doc doc' :
  stored_application w app_id = Some doc ->
  apply_update
    (stage_update action
       (dict_get (as_dict doc) "current_stage" (VStr "coordinator"))).2 doc
  = Some doc' ->
  stored_application (act_on_application app_id action w).2 app_id = Some doc'.
Proof.
  intros Hdoc Hupd.
  destruct (stored_application_inv _ _ _ Hdoc) as (st & oid & Hdb & Hoid & Hfind).
  rewrite (act_on_application_found _ _ _ _ _ _ Hdb Hoid Hfind).
  destruct (stage_update _ _) as [[ns cs] u]. cbn [snd] in Hupd.
  destruct (update_one_apply _ _ _ _ _ _ Hfind Hupd)
    as (st1 & -> & Hfind1 & _ & _).
  unfold stored_application.
  destruct (StatusUpdate_new _ _ _ _ _ _ _) as [su | e]; cbn [snd db];
    rewrite Hoid; [| exact Hfind1].
  by rewrite find_one_insert_ne.
Qed.

(** ** Forwarding *)

Lemma dict_get_field doc k v default :
  k ≠ "_id" -> doc_fields doc !! k = Some v ->
  dict_get (as_dict doc) k default = v.
Proof. intros Hk Hv. unfold dict_get. by rewrite as_dict_field, Hv. Qed.

Lemma stage_update_forward action cs :
  ReviewAction.action action = "forward" ->
  stage_update action cs
  = (VStr "forwarded", str_or (ReviewAction.to_department action) cs,
     Update [("status", VStr "forwarded");
             ("current_stage", str_or (ReviewAction.to_department action) cs)]
            [("route_history", str_or (ReviewAction.to_department action) cs)]).
Proof. intros H. unfold stage_update. by rewrite H. Qed.

(** C3, as amended: for every call with action "forward" on an existing
    application the stored status becomes "forwarded"; when to_department
    is a non-empty string D, current_stage becomes D and D is appended as
    the last element of route_history; when to_department is omitted or is
    the empty string, current_stage keeps its value, and that value is
    appended to route_history. *)
Theorem forward_sets_stage_and_appends w app_id action doc c h :
  stored_application w app_id = Some doc ->
  doc_fields doc !! "current_stage" = Some (VStr c) ->
  doc_fields doc !! "route_history" = Some (VArr h) ->
  ReviewAction.action action = "forward" ->
  exists doc',
    stored_application (act_on_application app_id action w).2 app_id
    = Some doc' /\
    doc_fields doc' !! "status" = Some (VStr "forwarded") /\
    (forall D, ReviewAction.to_department action = Some D -> D <> "" ->
       doc_fields doc' !! "current_stage" = Some (VStr D) /\
       doc_fields doc' !! "route_history" = Some (VArr (h ++ [VStr D]))) /\
    (ReviewAction.to_department action = None \/
     ReviewAction.to_department action = Some "" ->
       doc_fields doc' !! "current_stage" = Some (VStr c) /\
       doc_fields doc' !! "route_history" = Some (VArr (h ++ [VStr c]))).
Proof.
  intros Hdoc Hc Hh Hact.
  pose (cs := str_or (ReviewAction.to_department action) (VStr c)).
  pose (doc' := Document (doc_id doc)
                  (<["route_history" := VArr (h ++ [cs])]>
                   (<["current_stage" := cs]>
                    (<["status" := VStr "forwarded"]> (doc_fields doc))))).
  exists doc'. split.
  - apply (act_on_application_stored _ _ _ _ _ Hdoc).
    rewrite (dict_get_field doc "current_stage" (VStr c)) by done.
    rewrite (stage_update_forward _ _ Hact). cbn [snd].
    by apply apply_update_forward.
  - subst doc'. cbn [doc_fields].
    split; [by rewrite !lookup_insert_ne, lookup_insert_eq by done |].
    split.
    + intros D HD Hne. subst cs. rewrite HD.
      destruct D as [| a D]; [done |]. cbn [str_or].
      by rewrite lookup_insert_eq, lookup_insert_ne, lookup_insert_eq by done.
    + intros [HD | HD]; subst cs; rewrite HD; cbn [str_or];
        by rewrite lookup_insert_eq, lookup_insert_ne, lookup_insert_eq by done.
Qed.

Lemma forward_sets_stage_and_appends_witness :
  stored_application world_S1 id_S1 = Some doc_S1 /\
  exists doc',
    stored_application (act_on_application id_S1 forward_hod world_S1).2 id_S1
    = Some doc' /\
    doc_fields doc' !! "status" = Some (VStr "forwarded") /\
    (forall D, ReviewAction.to_department forward_hod = Some D -> D <> "" ->
       doc_fields doc' !! "current_stage" = Some (VStr D) /\
       doc_fields doc' !! "route_history" = Some (VArr ([] ++ [VStr D]))) /\
    (ReviewAction.to_department forward_hod = None \/
     ReviewAction.to_department forward_hod = Some "" ->
       doc_fields doc' !! "current_stage" = Some (VStr "coordinator") /\
       doc_fields doc' !! "route_history"
       = Some (VArr ([] ++ [VStr "coordinator"]))).
Proof.
  split; [vm_compute; reflexivity |].
  apply (forward_sets_stage_and_appends world_S1 id_S1 forward_hod doc_S1
           "coordinator" []); vm_compute; reflexivity.
Defined.

(** C3, counterexample: a forward whose to_department is provided as the
    empty string leaves current_stage at "coordinator"; it does not become
    the provided value. *)
Lemma forward_blank_keeps_stage :
  ReviewAction.action forward_blank = "forward" /\
  ReviewAction.to_department forward_blank = Some "" /\
  stored_application world_S1 id_S1 = Some doc_S1 /\
  application_field (act_on_application id_S1 forward_blank world_S1).2
    id_S1 "current_stage" = Some (VStr "coordinator") /\
  application_field (act_on_application id_S1 forward_blank world_S1).2
    id_S1 "current_stage" <> Some (VStr "").
Proof.
  assert (H : application_field
                (act_on_application id_S1 forward_blank world_S1).2
                id_S1 "current_stage" = Some (VStr "coordinator"))
    by (vm_compute; reflexivity).
  repeat split; try (vm_compute; reflexivity).
  rewrite H. discriminate.
Qed.

(** ** Calls that fail before anything is written *)

Lemma act_on_application_unavailable app_id action rs :
  act_on_application app_id action (mkWorld None rs)
  = (Raise (HTTPException 500 "Database not available"), mkWorld None rs).
Proof. reflexivity. Qed.

Lemma act_on_application_invalid_id app_id action st rs :
  ObjectId_of_str app_id = None ->
  act_on_application app_id action (mkWorld (Some st) rs)
  = (Raise (InvalidId app_id), mkWorld (Some st) rs).
Proof.
  intros H. unfold act_on_application, bind, read_db, ObjectId_new, raise.
  cbn [db]. by rewrite H.
Qed.

(** A well-formed identifier that no application has: the call answers 404
    and leaves the world as it was. *)
Lemma act_on_application_not_found app_id action st rs oid :
  ObjectId_of_str app_id = Some oid ->
  find_one st "application" [("_id", VOid oid)] = None ->
  act_on_application app_id action (mkWorld (Some st) rs)
  = (Raise (HTTPException 404 "Application not found"), mkWorld (Some st) rs).
Proof.
  intros Hoid Hfind.
  unfold act_on_application, bind, read_db, ObjectId_new, db_find_one, ret,
    raise.
  cbn [db]. rewrite Hoid. cbn [db]. by rewrite Hfind.
Qed.

(** C4, at the failing input: the identifier "123" refers to no application
    in any database, yet the call does not answer 404: [ObjectId("123")]
    raises [InvalidId], which the handler does not catch, a server error.
    Nothing is written. *)
Theorem malformed_id_is_server_error st rs action :
  stored_application (mkWorld (Some st) rs) "123" = None /\
  act_on_application "123" action (mkWorld (Some st) rs)
  = (Raise (InvalidId "123"), mkWorld (Some st) rs) /\
  http_status (InvalidId "123") = 500%Z /\
  http_status (InvalidId "123") <> 404%Z.
Proof.
  split; [reflexivity |]. split; [by apply act_on_application_invalid_id |].
  split; [reflexivity | discriminate].
Qed.

(** ** Calls on an existing application *)

(** The whole outcome of a call on an existing application whose update
    goes through: the document is replaced by its update, then the status
    update is validated; only when it is valid is it stored and the call
    answered. *)
Lemma act_on_application_outcome w app_id action doc doc' :
  stored_application w app_id = Some doc ->
  let '(new_status, current_stage, u) :=
    stage_update action
      (dict_get (as_dict doc) "current_stage" (VStr "coordinator")) in
  apply_update u doc = Some doc' ->
  exists st st1,
    db w = Some st /\
    collection st1 "statusupdate" = collection st "statusupdate" /\
    next_oid st1 = next_oid st /\
    find_one st1 "application" [("_id", VOid (doc_id doc))] = Some doc' /\
    let rs := requests w
              ++ [UpdateOne "application" [("_id", VOid (doc_id doc))] u] in
    act_on_application app_id action w
    = match StatusUpdate_new app_id (ReviewAction.actor_role action)
              (ReviewAction.actor_name action) (ReviewAction.action action)
              (ReviewAction.comments action)
              (ReviewAction.to_department action) None with
      | Raise e => (Raise e, mkWorld (Some st1) rs)
      | Ok su =>
          (Ok (<["id" := VStr app_id]>
               (<["status" := new_status]>
               (<["current_stage" := current_stage]> ∅))),
           mkWorld
             (Some (insert_one st1 "statusupdate"
                      (serialize (EStatusUpdate su))).2)
             (rs ++ [CreateDocument "statusupdate" (EStatusUpdate su)]))
      end.
Proof.
  intros Hdoc.
  destruct (stored_application_inv _ _ _ Hdoc) as (st & oid & Hdb & Hoid & Hfind).
  rewrite (act_on_application_found _ _ _ _ _ _ Hdb Hoid Hfind).
  destruct (stage_update _ _) as [[ns cs] u]. intros Hupd.
  assert (Hid : doc_id doc = oid).
  { destruct (update_one_found _ _ _ u _ Hfind) as (_ & _ & _ & _ & Hm & _).
    rewrite query_matches_id in Hm. symmetry. by apply N.eqb_eq. }
  rewrite Hid.
  destruct (update_one_apply _ _ _ _ _ _ Hfind Hupd)
    as (st1 & -> & Hfind1 & Hnext & Hother).
  exists st, st1. split; [assumption |].
  split; [by apply Hother |]. split; [assumption |]. split; [assumption |].
  reflexivity.
Qed.

(** C1, at the failing input: "escalate" is none of forward, approve and
    reject, and the application exists.  The handler sets the status to
    "under_review" and then builds a [StatusUpdate] from the action, whose
    schema does not admit "escalate": the call raises instead of returning
    the status and the stage, and no status update is recorded. *)
Theorem escalate_sets_status_then_raises :
  stored_application world_S1 id_S1 = Some doc_S1 /\
  ReviewAction.action escalate = "escalate" /\
  (act_on_application id_S1 escalate world_S1).1
  = Raise (ValidationError ["action"]) /\
  application_field (act_on_application id_S1 escalate world_S1).2
    id_S1 "status" = Some (VStr "under_review") /\
  stored_updates (act_on_application id_S1 escalate world_S1).2 id_S1
  = stored_updates world_S1 id_S1.
Proof. repeat split; vm_compute; reflexivity. Qed.

(** C5, at the failing input: an approval by an actor whose role is none of
    the six roles of the [StatusUpdate] schema.  The status is set to
    "approved", then the construction of the status update raises: no
    record is added. *)
Theorem approval_by_unknown_role_leaves_no_record :
  stored_application world_S1 id_S1 = Some doc_S1 /\
  ReviewAction.action approve_by_dean = "approve" /\
  (act_on_application id_S1 approve_by_dean world_S1).1
  = Raise (ValidationError ["actor_role"]) /\
  application_field (act_on_application id_S1 approve_by_dean world_S1).2
    id_S1 "status" = Some (VStr "approved") /\
  stored_updates (act_on_application id_S1 approve_by_dean world_S1).2 id_S1
  = stored_updates world_S1 id_S1 /\
  requests (act_on_application id_S1 approve_by_dean world_S1).2
  = requests world_S1
    ++ [UpdateOne "application" [("_id", VOid 0%N)]
          (Update [("status", VStr "approved")] [])].
Proof. repeat split; vm_compute; reflexivity. Qed.

(** ** Submission *)

Lemma submit_application_run app_data st rs :
  submit_application app_data (mkWorld (Some st) rs)
  = let inserted_id := ObjectId_str (next_oid st) in
    let su := submit_update app_data inserted_id in
    let st1 := (insert_one st "application"
                  (serialize (EApplication app_data))).2 in
    let st2 := (insert_one st1 "statusupdate"
                  (serialize (EStatusUpdate su))).2 in
    (Ok (<["id" := VStr inserted_id]> (<["status" := VStr "submitted"]> ∅)),
     mkWorld (Some st2)
       ((rs ++ [CreateDocument "application" (EApplication app_data)])
        ++ [CreateDocument "statusupdate" (EStatusUpdate su)])).
Proof. reflexivity. Qed.

(** Without a database the submission fails in the adapter. *)
Lemma submit_application_unavailable app_data rs :
  (submit_application app_data (mkWorld None rs)).1 = Raise Unavailable.
Proof. reflexivity. Qed.

(** What is persisted is the payload as it came, the workflow fields
    included. *)
Lemma submit_application_persists_payload app_data st rs :
  let w' := (submit_application app_data (mkWorld (Some st) rs)).2 in
  exists st',
    db w' = Some st' /\
    collection st' "application"
    = collection st "application"
      ++ [Document (next_oid st) (serialize (EApplication app_data))].
Proof.
  rewrite submit_application_run. cbn [snd db]. eexists. split; [reflexivity |].
  rewrite collection_insert_ne by done. apply collection_insert_eq.
Qed.

(** C2, at the failing input: a submission whose payload carries
    status "approved", current_stage "admin" and route_history ["hod"] is
    accepted and answered with status "submitted", while the application
    that is persisted has the three fields as the payload gave them. *)
Theorem preapproved_submission_is_stored_as_sent :
  let r := submit_application leave_S1_preapproved empty_world in
  Application.status leave_S1_preapproved = Status.approved /\
  r.1 = Ok (<["id" := VStr id_S1]> (<["status" := VStr "submitted"]> ∅)) /\
  requests r.2
  = [CreateDocument "application" (EApplication leave_S1_preapproved);
     CreateDocument "statusupdate"
       (EStatusUpdate (submit_update leave_S1_preapproved id_S1))] /\
  application_field r.2 id_S1 "status" = Some (VStr "approved") /\
  application_field r.2 id_S1 "current_stage" = Some (VStr "admin") /\
  application_field r.2 id_S1 "route_history" = Some (VArr [VStr "hod"]).
Proof. repeat split; vm_compute; reflexivity. Qed.

Lemma filter_none {A} (P : A -> bool) (l : list A) :
  Forall (fun a => P a = false) l -> filter (fun a => P a = true) l = [].
Proof.
  induction 1 as [| a l Ha _ IH]; [reflexivity |].
  rewrite filter_cons. destruct (decide _); [congruence | exact IH].
Qed.

Lemma query_matches_application_id s d :
  query_matches [("application_id", VStr s)] d
  = match doc_fields d !! "application_id" with
    | Some v => value_matches (VStr s) v
    | None => false
    end.
Proof.
  unfold query_matches, field_matches. cbn [forallb fst snd].
  rewrite as_dict_field by done. rewrite andb_true_r.
  by destruct (doc_fields d !! "application_id").
Qed.

Lemma updates_refer_to_past_fresh st :
  updates_refer_to_past st ->
  find st "statusupdate" [("application_id", VStr (ObjectId_str (next_oid st)))]
  = [].
Proof.
  intros Hinv. unfold find. apply filter_none.
  eapply Forall_impl; [exact Hinv |].
  intros d (s & o & Hs & Ho & Hlt). rewrite query_matches_application_id, Hs.
  unfold value_matches. cbn [value_eqb]. rewrite orb_false_r.
  destruct (String.eqb_spec (ObjectId_str (next_oid st)) s) as [<- | _];
    [| reflexivity].
  rewrite hex_value_ObjectId_str in Ho. injection Ho as <-. lia.
Qed.

(** The status updates found for the identifier of a new application,
    once the application and its first status update are inserted: that
    status update and no other. *)
Lemma find_updates_after_submit st d su :
  updates_refer_to_past st ->
  StatusUpdate.application_id su = ObjectId_str (next_oid st) ->
  find (insert_one (insert_one st "application" d).2 "statusupdate"
          (serialize (EStatusUpdate su))).2
    "statusupdate" [("application_id", VStr (ObjectId_str (next_oid st)))]
  = [Document (next_oid st + 1)%N (serialize (EStatusUpdate su))].
Proof.
  intros Hinv Hsu. unfold find.
  rewrite collection_insert_eq, collection_insert_ne by done.
  rewrite filter_app.
  pose proof (updates_refer_to_past_fresh st Hinv) as Hfresh.
  unfold find in Hfresh. rewrite Hfresh. cbn [app].
  rewrite filter_cons, filter_nil.
  destruct (decide _) as [_ | Hno]; [reflexivity |].
  exfalso. apply Hno. rewrite query_matches_application_id.
  cbn [serialize doc_fields]. rewrite lookup_insert_eq, Hsu.
  unfold value_matches. cbn [value_eqb]. by rewrite String.eqb_refl.
Qed.

(** C6: after every valid submission (to a database whose status updates
    refer to identifiers generated earlier) exactly one status update is
    stored for the new identifier, the one the call answered; it has
    action "submit", actor_role "student", the application's student_name
    as actor_name and the comment "Application submitted". *)
Theorem submission_records_one_update app_data st rs :
  updates_refer_to_past st ->
  exists inserted_id w' o,
    submit_application app_data (mkWorld (Some st) rs)
    = (Ok (<["id" := VStr inserted_id]> (<["status" := VStr "submitted"]> ∅)),
       w') /\
    inserted_id = ObjectId_str (next_oid st) /\
    stored_updates w' inserted_id
    = [Document o
         (serialize
            (EStatusUpdate
               (StatusUpdate.mk inserted_id Role.student
                  (Application.student_name app_data) Action.submit
                  (Some "Application submitted") None None)))].
Proof.
  intros Hinv. rewrite submit_application_run. cbv zeta.
  exists (ObjectId_str (next_oid st)). eexists. exists (next_oid st + 1)%N.
  split; [reflexivity |]. split; [reflexivity |].
  unfold stored_updates. cbn [db].
  by apply find_updates_after_submit.
Qed.

Lemma submission_records_one_update_witness :
  updates_refer_to_past db_S1 /\
  exists inserted_id w' o,
    submit_application leave_S1_preapproved (mkWorld (Some db_S1) [])
    = (Ok (<["id" := VStr inserted_id]> (<["status" := VStr "submitted"]> ∅)),
       w') /\
    inserted_id = ObjectId_str (next_oid db_S1) /\
    stored_updates w' inserted_id
    = [Document o
         (serialize
            (EStatusUpdate
               (StatusUpdate.mk inserted_id Role.student
                  (Application.student_name leave_S1_preapproved)
                  Action.submit (Some "Application submitted") None None)))].
Proof.
  assert (H : updates_refer_to_past db_S1).
  { constructor; [| constructor]. exists id_S1, 0%N.
    repeat split; vm_compute; reflexivity. }
  split; [exact H |].
  apply (submission_records_one_update leave_S1_preapproved db_S1 [] H).
Defined.

(** ** The write requests of the handlers *)

Section Emits.
Context (P : db_call -> Prop).

Lemma emits_ret {A} (Q : A -> Prop) (a : A) : Q a -> emits P Q (ret a).
Proof.
  intros Ha w. split.
  - exists []. by rewrite app_nil_r.
  - by intros ? [= <-].
Qed.

Lemma emits_raise {A} (Q : A -> Prop) (e : exn) : emits P Q (raise e).
Proof.
  intros w. split.
  - exists []. by rewrite app_nil_r.
  - discriminate.
Qed.

Lemma emits_of_result {A} (Q : A -> Prop) (r : Result A) :
  (forall a, r = Ok a -> Q a) -> emits P Q (of_result r).
Proof.
  intros Hr w. split.
  - exists []. by rewrite app_nil_r.
  - exact Hr.
Qed.

Lemma emits_read {A} (m : M A) :
  (forall w, (m w).2 = w) -> emits P (fun _ => True) m.
Proof.
  intros Hm w. split; [| done].
  exists []. by rewrite Hm, app_nil_r.
Qed.

Lemma emits_bind {A B} (Q : A -> Prop) (R : B -> Prop)
    (m : M A) (k : A -> M B) :
  emits P Q m -> (forall a, Q a -> emits P R (k a)) -> emits P R (bind m k).
Proof.
  intros Hm Hk w. unfold bind.
  destruct (Hm w) as [(new1 & Hreq1 & Hnew1) Hval].
  destruct (m w) as [[a | e] w1]; cbn [fst snd] in *.
  - destruct (Hk a (Hval a eq_refl) w1) as [(new2 & Hreq2 & Hnew2) Hval2].
    split; [| exact Hval2].
    exists (new1 ++ new2). rewrite Hreq2, Hreq1, app_assoc.
    split; [reflexivity | by apply Forall_app].
  - split; [| discriminate]. by exists new1.
Qed.

Lemma emits_db_update_one name q u :
  P (UpdateOne name q u) -> emits P (fun _ => True) (db_update_one name q u).
Proof.
  intros Hp w. split; [| done].
  exists [UpdateOne name q u]. split; [| by constructor].
  unfold db_update_one. destruct (db w) as [st |]; [| reflexivity].
  by destruct (update_one st name q u).
Qed.

Lemma emits_create_document name data :
  P (CreateDocument name data) ->
  emits P (fun _ => True) (create_document name data).
Proof.
  intros Hp w. split; [| done].
  exists [CreateDocument name data]. split; [| by constructor].
  unfold create_document. by destruct (db w).
Qed.
End Emits.

Lemma StatusUpdate_new_created_at a r n act c t ca su :
  StatusUpdate_new a r n act c t ca = Ok su -> StatusUpdate.created_at su = ca.
Proof.
  unfold StatusUpdate_new.
  destruct (Role.of_str r), (Action.of_str act); try discriminate.
  by intros [= <-].
Qed.

Lemma submit_application_emits app_data :
  emits sets_no_created_at (fun _ => True) (submit_application app_data).
Proof.
  unfold submit_application.
  eapply emits_bind; [by apply emits_create_document |]. intros inserted_id _.
  eapply emits_bind with (Q := fun su => StatusUpdate.created_at su = None).
  { apply emits_of_result. intros su. apply StatusUpdate_new_created_at. }
  intros su Hsu.
  eapply emits_bind; [by apply emits_create_document |]. intros _ _.
  by apply emits_ret.
Qed.

Lemma act_on_application_emits app_id action :
  emits sets_no_created_at (fun _ => True) (act_on_application app_id action).
Proof.
  unfold act_on_application.
  eapply emits_bind; [by apply emits_read |]. intros [st |] _;
    [| apply emits_raise].
  eapply emits_bind with (Q := fun _ => True).
  { unfold ObjectId_new. destruct (ObjectId_of_str app_id);
      [by apply emits_ret | apply emits_raise]. }
  intros oid _.
  eapply emits_bind; [apply emits_read; intros w; unfold db_find_one;
                      by destruct (db w) |].
  intros [doc |] _; [| apply emits_raise].
  eapply emits_bind with (Q := fun _ => True).
  { repeat match goal with
           | |- emits _ _ (if ?b then _ else _) => destruct b
           end;
      (eapply emits_bind with (Q := fun _ => True);
       [unfold ObjectId_new; destruct (ObjectId_of_str app_id);
        [by apply emits_ret | apply emits_raise] |]);
      intros oid' _;
      (eapply emits_bind;
       [apply emits_db_update_one; cbn;
        repeat (constructor; [done |]); constructor |]);
      intros _ _; by apply emits_ret. }
  intros [new_status current_stage] _.
  eapply emits_bind with (Q := fun su => StatusUpdate.created_at su = None).
  { apply emits_of_result. intros su. apply StatusUpdate_new_created_at. }
  intros su Hsu.
  eapply emits_bind; [by apply emits_create_document |]. intros _ _.
  by apply emits_ret.
Qed.

(** C10: in every world, for every submission and every action call, the
    write requests the call adds give no creation time: each status update
    handed to the adapter has created_at at its schema default [None], and
    no update of a stored document sets a created_at.  With a database, a
    submission does hand over its status update, built that way. *)
Theorem status_updates_carry_no_created_at :
  (forall w app_data,
     exists new,
       requests (submit_application app_data w).2 = requests w ++ new /\
       Forall sets_no_created_at new) /\
  (forall w app_id action,
     exists new,
       requests (act_on_application app_id action w).2 = requests w ++ new /\
       Forall sets_no_created_at new) /\
  (forall st rs app_data,
     exists su,
       requests (submit_application app_data (mkWorld (Some st) rs)).2
       = (rs ++ [CreateDocument "application" (EApplication app_data)])
         ++ [CreateDocument "statusupdate" (EStatusUpdate su)] /\
       StatusUpdate.created_at su = None).
Proof.
  split; [| split].
  - intros w app_data. apply (submit_application_emits app_data w).
  - intros w app_id action. apply (act_on_application_emits app_id action w).
  - intros st rs app_data. rewrite submit_application_run. cbv zeta.
    eexists. split; reflexivity.
Qed.

(** With the serialization of the adapter, such a status update is stored
    without a created_at field. *)
Lemma serialize_without_created_at su :
  StatusUpdate.created_at su = None ->
  serialize (EStatusUpdate su) !! "created_at" = None.
Proof.
  intros H. cbn [serialize]. rewrite H. cbn [fmap option_fmap option_map opt_field].
  rewrite !lookup_insert_ne by done.
  destruct (StatusUpdate.comments su), (StatusUpdate.to_department su);
    cbn [fmap option_fmap option_map opt_field];
    by rewrite ?lookup_insert_ne, lookup_empty by done.
Qed.

(** ** One update per call, and the route history *)

Lemma stage_update_cases action cs :
  (ReviewAction.action action = "forward" /\
   stage_update action cs
   = (VStr "forwarded", str_or (ReviewAction.to_department action) cs,
      Update [("status", VStr "forwarded");
              ("current_stage", str_or (ReviewAction.to_department action) cs)]
             [("route_history",
               str_or (ReviewAction.to_department action) cs)])) \/
  (ReviewAction.action action <> "forward" /\
   exists s, stage_update action cs
             = (VStr s, cs, Update [("status", VStr s)] [])).
Proof.
  unfold stage_update.
  destruct (String.eqb_spec (ReviewAction.action action) "forward") as [H | H];
    [left; by split | right; split; [assumption |]].
  destruct (String.eqb (ReviewAction.action action) "approve");
    [by exists "approved" |].
  destruct (String.eqb (ReviewAction.action action) "reject");
    [by exists "rejected" | by exists "under_review"].
Qed.

(** C8, as amended: for every application and every successful call,
    the prior route_history is a prefix of the resulting one, and the call
    makes exactly one update of the application document, which always
    sets status; that same update sets current_stage exactly when the
    action is "forward", and for any other action current_stage is not
    written and keeps its value. *)
Theorem action_is_one_update_and_history_grows w w' app_id action r doc h :
  act_on_application app_id action w = (Ok r, w') ->
  stored_application w app_id = Some doc ->
  doc_fields doc !! "route_history" = Some (VArr h) ->
  exists doc' h' u su,
    stored_application w' app_id = Some doc' /\
    doc_fields doc' !! "route_history" = Some (VArr h') /\
    h `prefix_of` h' /\
    requests w'
    = requests w
      ++ [UpdateOne "application" [("_id", VOid (doc_id doc))] u;
          CreateDocument "statusupdate" (EStatusUpdate su)] /\
    apply_update u doc = Some doc' /\
    In "status" (u_set u).*1 /\
    (In "current_stage" (u_set u).*1 <-> ReviewAction.action action = "forward") /\
    (ReviewAction.action action <> "forward" ->
     doc_fields doc' !! "current_stage" = doc_fields doc !! "current_stage").
Proof.
  intros Hrun Hdoc Hh.
  pose (cs := dict_get (as_dict doc) "current_stage" (VStr "coordinator")).
  assert (Hupd : exists doc' h',
             apply_update (stage_update action cs).2 doc = Some doc' /\
             doc_fields doc' !! "route_history" = Some (VArr h') /\
             h `prefix_of` h' /\
             (ReviewAction.action action <> "forward" ->
              doc_fields doc' !! "current_stage"
              = doc_fields doc !! "current_stage")).
  { destruct (stage_update_cases action cs) as [[Hact ->] | [Hact [s ->]]];
      cbn [snd].
    - eexists _, _. split; [by apply apply_update_forward |].
      cbn [doc_fields]. split; [by rewrite lookup_insert_eq |].
      split; [by apply prefix_app_r | congruence].
    - rewrite apply_update_set_status. eexists _, h. split; [reflexivity |].
      cbn [doc_fields]. split; [by rewrite lookup_insert_ne |].
      split; [reflexivity |]. intros _. by rewrite lookup_insert_ne. }
  destruct Hupd as (doc' & h' & Hupd & Hh' & Hpre & Hstage).
  pose proof (act_on_application_stored _ _ action _ _ Hdoc Hupd) as Hstored.
  pose proof (act_on_application_outcome w app_id action doc doc' Hdoc) as Hout.
  fold cs in Hout. rewrite Hrun in Hstored. cbn [snd] in Hstored.
  assert (Hkeys : In "status" (u_set (stage_update action cs).2).*1 /\
                  (In "current_stage" (u_set (stage_update action cs).2).*1
                   <-> ReviewAction.action action = "forward")).
  { destruct (stage_update_cases action cs) as [[Hact ->] | [Hact [s ->]]];
      cbn; split; try tauto.
    split; [| tauto]. intros [H | []]. discriminate. }
  destruct (stage_update action cs) as [[ns cs'] u]. cbn [snd] in *.
  destruct (Hout Hupd) as (st & st1 & _ & _ & _ & _ & Heq).
  rewrite Hrun in Heq.
  destruct (StatusUpdate_new _ _ _ _ _ _ _) as [su | e]; [| discriminate].
  injection Heq as _ ->.
  exists doc', h', u, su. cbn [requests].
  rewrite <- app_assoc. cbn [app]. tauto.
Qed.

Lemma action_is_one_update_and_history_grows_witness :
  exists r w',
    act_on_application id_S1 forward_hod world_S1 = (Ok r, w') /\
    stored_application world_S1 id_S1 = Some doc_S1 /\
    doc_fields doc_S1 !! "route_history" = Some (VArr []) /\
    exists doc' h' u su,
      stored_application w' id_S1 = Some doc' /\
      doc_fields doc' !! "route_history" = Some (VArr h') /\
      [] `prefix_of` h' /\
      requests w'
      = requests world_S1
        ++ [UpdateOne "application" [("_id", VOid (doc_id doc_S1))] u;
            CreateDocument "statusupdate" (EStatusUpdate su)] /\
      apply_update u doc_S1 = Some doc' /\
      In "status" (u_set u).*1 /\
      (In "current_stage" (u_set u).*1
       <-> ReviewAction.action forward_hod = "forward") /\
      (ReviewAction.action forward_hod <> "forward" ->
       doc_fields doc' !! "current_stage"
       = doc_fields doc_S1 !! "current_stage").
Proof.
  exists (<["id" := VStr id_S1]>
          (<["status" := VStr "forwarded"]>
          (<["current_stage" := VStr "hod"]> ∅))),
         (act_on_application id_S1 forward_hod world_S1).2.
  assert (Hrun : act_on_application id_S1 forward_hod world_S1
                 = (Ok (<["id" := VStr id_S1]>
                        (<["status" := VStr "forwarded"]>
                        (<["current_stage" := VStr "hod"]> ∅))),
                    (act_on_application id_S1 forward_hod world_S1).2))
    by (vm_compute; reflexivity).
  split; [exact Hrun |].
  split; [vm_compute; reflexivity |]. split; [vm_compute; reflexivity |].
  apply (action_is_one_update_and_history_grows _ _ _ _ _ _ _ Hrun);
    vm_compute; reflexivity.
Defined.

(** C8, counterexample: a successful approval changes the status from
    "submitted" to "approved" by an update that sets status alone;
    current_stage is not among the fields that update sets. *)
Lemma approval_update_leaves_stage_unset :
  let w' := (act_on_application id_S1 approve_by_hod world_S1).2 in
  (act_on_application id_S1 approve_by_hod world_S1).1
  = Ok (<["id" := VStr id_S1]>
        (<["status" := VStr "approved"]>
        (<["current_stage" := VStr "coordinator"]> ∅))) /\
  application_field world_S1 id_S1 "status" = Some (VStr "submitted") /\
  application_field w' id_S1 "status" = Some (VStr "approved") /\
  (exists su,
     requests w'
     = requests world_S1
       ++ [UpdateOne "application" [("_id", VOid 0%N)]
             (Update [("status", VStr "approved")] []);
           CreateDocument "statusupdate" (EStatusUpdate su)]) /\
  ~ In "current_stage" (u_set (Update [("status", VStr "approved")] [])).*1.
Proof.
  cbv zeta. split; [vm_compute; reflexivity |].
  split; [vm_compute; reflexivity |]. split; [vm_compute; reflexivity |].
  split; [eexists; vm_compute; reflexivity |].
  intros [H | []]. discriminate.
Qed.

(** ** The timeline *)

Lemma to_public_eq doc :
  to_public doc
  = <["id" := VStr (ObjectId_str (doc_id doc))]> (delete "_id" (doc_fields doc)).
Proof.
  unfold to_public. destruct (decide _) as [Hempty | _].
  - exfalso. assert (H : "_id" ∈ dom (as_dict doc)).
    { apply elem_of_dom. rewrite as_dict_id. eauto. }
    rewrite Hempty in H. by apply not_elem_of_empty in H.
  - unfold as_dict. by rewrite delete_insert_eq.
Qed.

(** The public form: the identifier under [id], as a string, no [_id], and
    every other field as stored. *)
Lemma to_public_id doc :
  to_public doc !! "id" = Some (VStr (ObjectId_str (doc_id doc))).
Proof. rewrite to_public_eq. apply lookup_insert_eq. Qed.

Lemma to_public_internal_id doc : to_public doc !! "_id" = None.
Proof.
  rewrite to_public_eq. rewrite lookup_insert_ne by done.
  apply lookup_delete_eq.
Qed.

Lemma to_public_field doc k :
  k ≠ "id" -> k ≠ "_id" -> to_public doc !! k = doc_fields doc !! k.
Proof.
  intros H1 H2. rewrite to_public_eq.
  by rewrite lookup_insert_ne, lookup_delete_ne.
Qed.

Section TimelineOrder.

Variable bson_leb : option value -> option value -> bool.
Hypothesis bson_leb_total :
  forall a b, bson_leb a b = true \/ bson_leb b a = true.
Hypothesis bson_leb_trans :
  forall a b c, bson_leb a b = true -> bson_leb b c = true ->
                bson_leb a c = true.

Lemma insert_by_Permutation k x l : insert_by bson_leb k x l ≡ₚ x :: l.
Proof.
  induction l as [| y l IH]; [reflexivity |]. cbn [insert_by].
  destruct (bson_leb _ _); [reflexivity |].
  rewrite IH. apply Permutation_swap.
Qed.

Lemma cursor_sort_Permutation k l : cursor_sort bson_leb k l ≡ₚ l.
Proof.
  induction l as [| x l IH]; [reflexivity |].
  unfold cursor_sort in *. cbn [foldr].
  rewrite insert_by_Permutation. by constructor.
Qed.




End TimelineOrder.




Example timeline_of_dated_db :
  match (get_timeline instant_leb id_S1 (mkWorld (Some dated_db) [])).1 with
  | Ok l => Some ((fun d : dict => (d !! "action", d !! "created_at")) <$> l)
  | Raise _ => None
  end
  = Some [(Some (VStr "submit"), Some (VDate 10));
          (Some (VStr "forward"), Some (VDate 20));
          (Some (VStr "approve"), Some (VDate 30))].
Proof. vm_compute. reflexivity. Qed.

(** An identifier that no application has: an empty list, not an error;
    and without a database, the 500 of the guard. *)
Example timeline_of_unknown_id :
  stored_application world_S1 "00000000000000000000000f" = None /\
  (get_timeline instant_leb "00000000000000000000000f" world_S1).1 = Ok [].
Proof. split; vm_compute; reflexivity. Qed.

Lemma get_timeline_unavailable leb app_id rs :
  get_timeline leb app_id (mkWorld None rs)
  = (Raise (HTTPException 500 "Database not available"), mkWorld None rs).
Proof. reflexivity. Qed.

(** ** Departments *)

Lemma serialize_department_ids dept :
  serialize (EDepartment dept) !! "_id" = None /\
  serialize (EDepartment dept) !! "id" = None.
Proof.
  cbn [serialize]. split;
    by rewrite !lookup_insert_ne, lookup_empty by done.
Qed.

Lemma create_department_run dept st rs :
  create_department dept (mkWorld (Some st) rs)
  = (Ok (<["id" := VStr (ObjectId_str (next_oid st))]> ∅),
     mkWorld
       (Some (insert_one st "department" (serialize (EDepartment dept))).2)
       (rs ++ [CreateDocument "department" (EDepartment dept)])).
Proof. reflexivity. Qed.

Lemma find_all st name : find st name [] = collection st name.
Proof.
  unfold find. cbn [query_matches forallb].
  induction (collection st name) as [| d l IH]; [reflexivity |].
  rewrite filter_cons. destruct (decide _); [by rewrite IH | done].
Qed.

Lemma list_departments_run st rs :
  list_departments (mkWorld (Some st) rs)
  = (Ok (to_public <$> collection st "department"), mkWorld (Some st) rs).
Proof.
  unfold list_departments, bind, get_documents, ret. cbn [db].
  by rewrite find_all.
Qed.

(** Once listed, always listed: no request removes or changes a document
    of the department collection. *)
Lemma update_one_other st name q u st1 name' :
  update_one st name q u = Some st1 -> name ≠ name' ->
  collection st1 name' = collection st name'.
Proof.
  unfold update_one. destruct (update_first _ _ _); [| discriminate].
  intros [= <-] Hne. by apply collection_set_ne.
Qed.

Lemma handle_departments leb st rs r :
  exists st',
    db (handle leb (mkWorld (Some st) rs) r) = Some st' /\
    collection st "department" `prefix_of` collection st' "department".
Proof.
  destruct r as [dept | | app_data | app_id action | app_id]; cbn [handle].
  - rewrite create_department_run. cbn [snd db]. eexists.
    split; [reflexivity |]. rewrite collection_insert_eq.
    by apply prefix_app_r.
  - rewrite list_departments_run. eauto.
  - rewrite submit_application_run. cbv zeta. cbn [snd db]. eexists.
    split; [reflexivity |]. by rewrite !collection_insert_ne.
  - destruct (ObjectId_of_str app_id) as [oid |] eqn:Hoid;
      [| rewrite act_on_application_invalid_id by assumption; eauto].
    destruct (find_one st "application" [("_id", VOid oid)])
      as [doc |] eqn:Hfind;
      [| rewrite (act_on_application_not_found _ _ _ _ oid) by assumption;
         eauto].
    rewrite (act_on_application_found _ st _ _ oid doc) by done.
    destruct (stage_update _ _) as [[ns cs] u]. cbv zeta.
    destruct (update_one st "application" _ u) as [st1 |] eqn:Hupd;
      [| cbn [snd db]; eauto].
    assert (Hdep : collection st1 "department" = collection st "department")
      by (by apply (update_one_other _ _ _ _ _ _ Hupd)).
    destruct (StatusUpdate_new _ _ _ _ _ _ _) as [su | e]; cbn [snd db];
      eexists; (split; [reflexivity |]).
    + by rewrite collection_insert_ne, Hdep.
    + by rewrite Hdep.
  - eauto.
Qed.

Lemma serve_departments leb reqs :
  forall st rs,
    exists st',
      db (serve leb (mkWorld (Some st) rs) reqs) = Some st' /\
      collection st "department" `prefix_of` collection st' "department".
Proof.
  induction reqs as [| r reqs IH]; intros st rs; [by eexists |].
  unfold serve. cbn [foldl].
  destruct (handle_departments leb st rs r) as (st1 & Hdb1 & Hpre1).
  destruct (handle leb (mkWorld (Some st) rs) r) as [d1 rs1].
  cbn [db] in Hdb1. subst d1.
  destruct (IH st1 rs1) as (st' & Hdb' & Hpre').
  exists st'. split; [exact Hdb' |]. by etrans.
Qed.

(** C9: with a database, for every department, after [create_department]
    answered the identifier I, [list_departments], whether it is called at
    once or after any further requests, answers a list with an entry whose
    [id] is I, which has no [_id], and whose other fields are the fields
    of the department as created; no entry of the list has an [_id]. *)
Theorem created_department_is_listed leb dept st rs reqs :
  exists I w',
    create_department dept (mkWorld (Some st) rs)
    = (Ok (<["id" := VStr I]> ∅), w') /\
    exists entries,
      list_departments (serve leb w' reqs) = (Ok entries, serve leb w' reqs) /\
      (exists e, e ∈ entries /\
                 e !! "id" = Some (VStr I) /\
                 e !! "_id" = None /\
                 delete "id" e = serialize (EDepartment dept)) /\
      Forall (fun e : dict => e !! "_id" = None) entries.
Proof.
  rewrite create_department_run.
  eexists _, _. split; [reflexivity |].
  destruct (serve_departments leb reqs
              (insert_one st "department" (serialize (EDepartment dept))).2
              (rs ++ [CreateDocument "department" (EDepartment dept)]))
    as (st' & Hdb' & [later Hpre]).
  destruct (serve leb _ reqs) as [d' rs']. cbn [db] in Hdb'. subst d'.
  rewrite list_departments_run. eexists. split; [reflexivity |].
  rewrite Hpre, collection_insert_eq. split.
  - exists (to_public (Document (next_oid st) (serialize (EDepartment dept)))).
    split.
    + apply list_elem_of_fmap_2. apply elem_of_app. left.
      apply elem_of_app. right. by apply list_elem_of_singleton.
    + split; [apply to_public_id |]. split; [apply to_public_internal_id |].
      rewrite to_public_eq. cbn [doc_id doc_fields].
      destruct (serialize_department_ids dept) as [H1 H2].
      rewrite delete_insert_eq. rewrite (delete_id _ "_id") by exact H1.
      by apply delete_id.
  - apply Forall_fmap. apply Forall_forall. intros d _.
    apply to_public_internal_id.
Qed.

Example department_round_trip :
  let w' := (create_department cse empty_world).2 in
  (create_department cse empty_world).1 = Ok (<["id" := VStr id_S1]> ∅) /\
  (list_departments w').1
  = Ok [<["id" := VStr id_S1]>
        (<["name" := VStr "Computer Science"]>
        (<["code" := VStr "CSE"]>
        (<["type" := VStr "academic"]>
        (<["is_active" := VBool true]> ∅))))].
Proof. split; vm_compute; reflexivity. Qed.

(** ** What holds of the other actions, and of approvals and rejections *)

Lemma stage_update_other action cs :
  ReviewAction.action action <> "forward" ->
  ReviewAction.action action <> "approve" ->
  ReviewAction.action action <> "reject" ->
  stage_update action cs
  = (VStr "under_review", cs, Update [("status", VStr "under_review")] []).
Proof.
  intros H1 H2 H3. unfold stage_update.
  apply String.eqb_neq in H1, H2, H3. by rewrite H1, H2, H3.
Qed.

Lemma stage_update_verdict action cs s :
  (ReviewAction.action action = "approve" /\ s = "approved") \/
  (ReviewAction.action action = "reject" /\ s = "rejected") ->
  stage_update action cs = (VStr s, cs, Update [("status", VStr s)] []).
Proof.
  unfold stage_update. by intros [[-> ->] | [-> ->]].
Qed.

(** An action that is none of forward, approve and reject, on an existing
    application: the stored status becomes "under_review" and nothing else
    of the application changes; the call returns that status and the
    stage whenever role and action are admitted by the [StatusUpdate]
    schema. *)
Lemma other_action_outcome w app_id action doc :
  stored_application w app_id = Some doc ->
  ReviewAction.action action <> "forward" ->
  ReviewAction.action action <> "approve" ->
  ReviewAction.action action <> "reject" ->
  stored_application (act_on_application app_id action w).2 app_id
  = Some (Document (doc_id doc)
            (<["status" := VStr "under_review"]> (doc_fields doc))) /\
  (forall su,
     StatusUpdate_new app_id (ReviewAction.actor_role action)
       (ReviewAction.actor_name action) (ReviewAction.action action)
       (ReviewAction.comments action) (ReviewAction.to_department action) None
     = Ok su ->
     (act_on_application app_id action w).1
     = Ok (<["id" := VStr app_id]>
           (<["status" := VStr "under_review"]>
           (<["current_stage" :=
                dict_get (as_dict doc) "current_stage" (VStr "coordinator")]>
              ∅)))).
Proof.
  intros Hdoc H1 H2 H3.
  pose proof (act_on_application_stored w app_id action doc) as Hst.
  pose proof (act_on_application_outcome w app_id action doc) as Hout.
  rewrite (stage_update_other _ _ H1 H2 H3) in Hst, Hout. cbn [snd] in Hst.
  split; [by apply Hst |].
  intros su Hsu.
  destruct (Hout _ Hdoc (apply_update_set_status _ _))
    as (st & st1 & _ & _ & _ & _ & Heq).
  by rewrite Heq, Hsu.
Qed.

(** An approval or a rejection of an existing application: only the status
    of the stored application changes; when role and action are admitted by
    the [StatusUpdate] schema, one status update is added to the store. *)
Lemma verdict_outcome w app_id action doc s :
  stored_application w app_id = Some doc ->
  (ReviewAction.action action = "approve" /\ s = "approved") \/
  (ReviewAction.action action = "reject" /\ s = "rejected") ->
  stored_application (act_on_application app_id action w).2 app_id
  = Some (Document (doc_id doc) (<["status" := VStr s]> (doc_fields doc))) /\
  (forall su,
     StatusUpdate_new app_id (ReviewAction.actor_role action)
       (ReviewAction.actor_name action) (ReviewAction.action action)
       (ReviewAction.comments action) (ReviewAction.to_department action) None
     = Ok su ->
     exists st st',
       db w = Some st /\
       db (act_on_application app_id action w).2 = Some st' /\
       collection st' "statusupdate"
       = collection st "statusupdate"
         ++ [Document (next_oid st) (serialize (EStatusUpdate su))]).
Proof.
  intros Hdoc Hs.
  pose proof (act_on_application_stored w app_id action doc) as Hst.
  pose proof (act_on_application_outcome w app_id action doc) as Hout.
  rewrite (stage_update_verdict _ _ _ Hs) in Hst, Hout. cbn [snd] in Hst.
  split; [by apply Hst |].
  intros su Hsu.
  destruct (Hout _ Hdoc (apply_update_set_status _ _))
    as (st & st1 & Hdb & Hcoll & Hnext & _ & Heq).
  rewrite Heq, Hsu. cbn [snd db]. exists st. eexists.
  split; [assumption |]. split; [reflexivity |].
  by rewrite collection_insert_eq, Hcoll, Hnext.
Qed.

(** ** The invariants hold in every world the interface leads to *)

Lemma update_first_ids (P : ObjectId -> Prop) q u l :
  forall l', update_first q u l = Some l' ->
             Forall (fun d => P (doc_id d)) l ->
             Forall (fun d => P (doc_id d)) l'.
Proof.
  induction l as [| d l IH]; intros l'; cbn [update_first].
  - by intros [= <-].
  - intros Hrun Hl. apply Forall_cons in Hl as [Hd Hl].
    destruct (query_matches q d).
    + destruct (apply_update u d) as [d' |] eqn:Hupd; [| discriminate].
      injection Hrun as <-. constructor; [| assumption].
      by rewrite (apply_update_id _ _ _ Hupd).
    + destruct (update_first q u l) as [l'' |]; [| discriminate].
      injection Hrun as <-. constructor; [assumption | by apply IH].
Qed.

Lemma update_one_inv st name q u st1 :
  name ≠ "statusupdate" ->
  update_one st name q u = Some st1 ->
  store_inv st -> store_inv st1.
Proof.
  intros Hname Hrun [Hids Hupd]. unfold update_one in Hrun.
  destruct (update_first q u (collection st name)) as [l' |] eqn:Hl';
    [| discriminate].
  injection Hrun as <-. split.
  - intros name'. cbn [next_oid set_collection].
    destruct (decide (name = name')) as [<- | Hne].
    + rewrite collection_set_eq.
      apply (update_first_ids (fun o => (o < next_oid st)%N) _ _ _ _ Hl').
      apply Hids.
    + rewrite collection_set_ne by done. apply Hids.
  - unfold updates_refer_to_past.
    rewrite collection_set_ne by done. apply Hupd.
Qed.

Lemma insert_one_ids st name d :
  ids_generated st -> ids_generated (insert_one st name d).2.
Proof.
  intros Hids name'.
  assert (Hold : Forall (fun d0 => (doc_id d0 < next_oid st + 1)%N)
                   (collection st name')).
  { eapply Forall_impl; [apply Hids |]. intros d0 Hd0. cbn beta in *. lia. }
  destruct (decide (name = name')) as [<- | Hne].
  - rewrite collection_insert_eq. apply Forall_app. split; [exact Hold |].
    constructor; [| constructor]. cbn. lia.
  - by rewrite collection_insert_ne.
Qed.

Lemma updates_refer_to_past_later st :
  updates_refer_to_past st ->
  Forall (fun d => exists s o,
            doc_fields d !! "application_id" = Some (VStr s) /\
            hex_value s 0 = Some o /\ (o < next_oid st + 1)%N)
         (collection st "statusupdate").
Proof.
  intros H. eapply Forall_impl; [exact H |].
  intros d (s & o & Hs & Ho & Hlt). exists s, o. repeat split; [done .. | lia].
Qed.

Lemma insert_one_inv_other st name d :
  name ≠ "statusupdate" -> store_inv st -> store_inv (insert_one st name d).2.
Proof.
  intros Hname [Hids Hupd]. split; [by apply insert_one_ids |].
  unfold updates_refer_to_past. rewrite collection_insert_ne by done.
  by apply updates_refer_to_past_later.
Qed.

Lemma insert_one_inv_update st su o :
  hex_value (StatusUpdate.application_id su) 0 = Some o ->
  (o < next_oid st)%N ->
  store_inv st ->
  store_inv (insert_one st "statusupdate" (serialize (EStatusUpdate su))).2.
Proof.
  intros Ho Hlt [Hids Hupd]. split; [by apply insert_one_ids |].
  unfold updates_refer_to_past. rewrite collection_insert_eq.
  apply Forall_app. split; [by apply updates_refer_to_past_later |].
  constructor; [| constructor].
  exists (StatusUpdate.application_id su), o. cbn [doc_fields serialize].
  rewrite lookup_insert_eq. repeat split; [done |]. cbn. lia.
Qed.

Lemma find_one_elem st name q doc :
  find_one st name q = Some doc ->
  doc ∈ collection st name /\ query_matches q doc = true.
Proof.
  intros H. destruct (update_one_found st name q (Update [] []) doc H)
    as (l1 & l2 & Hl & _ & Hm & _).
  split; [| exact Hm]. rewrite Hl. apply elem_of_app. right. by left.
Qed.

Lemma StatusUpdate_new_application_id a r n act c t ca su :
  StatusUpdate_new a r n act c t ca = Ok su ->
  StatusUpdate.application_id su = a.
Proof.
  unfold StatusUpdate_new.
  destruct (Role.of_str r), (Action.of_str act); try discriminate.
  by intros [= <-].
Qed.

Lemma submit_application_inv app_data st rs :
  store_inv st ->
  exists st',
    db (submit_application app_data (mkWorld (Some st) rs)).2 = Some st' /\
    store_inv st'.
Proof.
  intros Hinv. rewrite submit_application_run. cbv zeta. cbn [snd db].
  eexists. split; [reflexivity |].
  apply (insert_one_inv_update _ _ (next_oid st)).
  - apply hex_value_ObjectId_str.
  - cbn. lia.
  - by apply insert_one_inv_other.
Qed.

Lemma act_on_application_inv app_id action st rs :
  store_inv st ->
  exists st',
    db (act_on_application app_id action (mkWorld (Some st) rs)).2 = Some st' /\
    store_inv st'.
Proof.
  intros Hinv.
  destruct (ObjectId_of_str app_id) as [oid |] eqn:Hoid;
    [| rewrite act_on_application_invalid_id by assumption; eauto].
  destruct (find_one st "application" [("_id", VOid oid)]) as [doc |] eqn:Hfind;
    [| rewrite (act_on_application_not_found _ _ _ _ oid) by assumption; eauto].
  rewrite (act_on_application_found _ st _ _ oid doc) by done.
  destruct (stage_update _ _) as [[ns cs] u]. cbv zeta.
  destruct (update_one st "application" _ u) as [st1 |] eqn:Hupd;
    [| cbn [snd db]; eauto].
  assert (Hinv1 : store_inv st1)
    by (eapply update_one_inv; [| exact Hupd | exact Hinv]; done).
  destruct (StatusUpdate_new _ _ _ _ _ _ _) as [su | e] eqn:Hsu;
    cbn [snd db]; [| eauto].
  eexists. split; [reflexivity |].
  apply StatusUpdate_new_application_id in Hsu.
  destruct (find_one_elem _ _ _ _ Hfind) as [Hin Hm].
  rewrite query_matches_id in Hm. apply N.eqb_eq in Hm.
  apply (insert_one_inv_update _ _ oid); [| | assumption].
  - rewrite Hsu. unfold ObjectId_of_str in Hoid.
    by destruct (_ =? _)%nat.
  - assert (Hnext : next_oid st1 = next_oid st).
    { unfold update_one in Hupd.
      destruct (update_first _ _ _); [| discriminate]. by injection Hupd as <-. }
    rewrite Hnext, Hm. destruct Hinv as [Hids _].
    specialize (Hids "application").
    rewrite Forall_forall in Hids. by apply Hids.
Qed.

Lemma store_inv_empty : store_inv (Db ∅ 0%N).
Proof. split; [intros name |]; apply Forall_nil_2. Qed.

(** Every world that requests lead to from a world with the invariants has
    a database with the invariants. *)
Lemma serve_inv leb reqs :
  forall w st,
    db w = Some st -> store_inv st ->
    exists st', db (serve leb w reqs) = Some st' /\ store_inv st'.
Proof.
  induction reqs as [| r reqs IH]; intros w st Hdb Hinv; [eauto |].
  unfold serve. cbn [foldl]. destruct w as [d rs]. cbn [db] in Hdb. subst d.
  assert (Hstep : exists st1,
             db (handle leb (mkWorld (Some st) rs) r) = Some st1 /\
             store_inv st1).
  { destruct r as [dept | | app_data | app_id action | app_id]; cbn [handle].
    - rewrite create_department_run. cbn [snd db]. eexists.
      split; [reflexivity | by apply insert_one_inv_other].
    - rewrite list_departments_run. eauto.
    - by apply submit_application_inv.
    - by apply act_on_application_inv.
    - eauto. }
  destruct Hstep as (st1 & Hdb1 & Hinv1). by apply (IH _ st1).
Qed.

(** In every world that requests lead to from the empty database, a
    submission leaves exactly one status update for its identifier. *)
Corollary served_submission_records_one_update leb reqs app_data :
  exists st rs inserted_id w',
    serve leb empty_world reqs = mkWorld (Some st) rs /\
    (submit_application app_data (serve leb empty_world reqs)).1
    = Ok (<["id" := VStr inserted_id]> (<["status" := VStr "submitted"]> ∅)) /\
    w' = (submit_application app_data (serve leb empty_world reqs)).2 /\
    length (stored_updates w' inserted_id) = 1.
Proof.
  destruct (serve_inv leb reqs empty_world (Db ∅ 0%N) eq_refl store_inv_empty)
    as (st & Hdb & [_ Hpast]).
  destruct (serve leb empty_world reqs) as [d rs]. cbn [db] in Hdb. subst d.
  rewrite submit_application_run. cbv zeta.
  eexists st, rs, _, _. split; [reflexivity |]. split; [reflexivity |].
  split; [reflexivity |]. unfold stored_updates. cbn [snd db].
  by rewrite find_updates_after_submit.
Qed.

(** ** The scenario of the specification *)

Example world_S1_db : world_S1
  = mkWorld (Some db_S1)
      [CreateDocument "application" (EApplication leave_S1);
       CreateDocument "statusupdate"
         (EStatusUpdate (submit_update leave_S1 id_S1))].
Proof. vm_compute. reflexivity. Qed.

(** Submit, forward to "hod", approve: the answers, and the timeline. *)
Example scenario :
  let w1 := (submit_application leave_S1 empty_world).2 in
  let r2 := act_on_application id_S1 forward_hod w1 in
  let r3 := act_on_application id_S1 approve_by_hod r2.2 in
  (submit_application leave_S1 empty_world).1
  = Ok (<["id" := VStr id_S1]> (<["status" := VStr "submitted"]> ∅)) /\
  r2.1 = Ok (<["id" := VStr id_S1]>
             (<["status" := VStr "forwarded"]>
             (<["current_stage" := VStr "hod"]> ∅))) /\
  r3.1 = Ok (<["id" := VStr id_S1]>
             (<["status" := VStr "approved"]>
             (<["current_stage" := VStr "hod"]> ∅))) /\
  match (get_timeline instant_leb id_S1 r3.2).1 with
  | Ok l => Some ((fun d : dict => d !! "action") <$> l)
  | Raise _ => None
  end
  = Some [Some (VStr "submit"); Some (VStr "forward"); Some (VStr "approve")].
Proof. cbv zeta. repeat split; vm_compute; reflexivity. Qed.

(** A review by a coordinator: the status becomes "under_review", the call
    answers it with the stage, and a second status update is stored. *)
Example review_of_S1 :
  (act_on_application id_S1 review world_S1).1
  = Ok (<["id" := VStr id_S1]>
        (<["status" := VStr "under_review"]>
        (<["current_stage" := VStr "coordinator"]> ∅))) /\
  application_field (act_on_application id_S1 review world_S1).2 id_S1 "status"
  = Some (VStr "under_review") /\
  length (stored_updates (act_on_application id_S1 review world_S1).2 id_S1) = 2.
Proof. repeat split; vm_compute; reflexivity. Qed.

(** * Further properties *)

(** ** Every path of a call *)

Lemma StatusUpdate_new_raises a r n act c t ca e :
  StatusUpdate_new a r n act c t ca = Raise e ->
  exists loc, e = ValidationError loc.
Proof.
  unfold StatusUpdate_new.
  destruct (Role.of_str r), (Action.of_str act); intros [= <-]; eauto.
Qed.

Lemma act_on_application_path app_id action w :
  act_path app_id action w (act_on_application app_id action w).
Proof.
  destruct w as [[st |] rs];
    [| rewrite act_on_application_unavailable; by constructor].
  destruct (ObjectId_of_str app_id) as [oid |] eqn:Hoid;
    [| rewrite act_on_application_invalid_id by assumption;
       by econstructor].
  destruct (find_one st "application" [("_id", VOid oid)]) as [doc |] eqn:Hfind;
    [| rewrite (act_on_application_not_found _ _ _ _ oid) by assumption;
       by econstructor].
  rewrite (act_on_application_found _ st _ _ oid doc) by done.
  destruct (stage_update _ _) as [[ns cs] u] eqn:Hstage. cbv zeta.
  destruct (update_one_found _ _ _ u _ Hfind) as (l1 & l2 & _ & _ & _ & Hrun).
  destruct (apply_update u doc) as [doc' |] eqn:Hupd.
  - rewrite Hrun.
    destruct (StatusUpdate_new _ _ _ _ _ _ _) as [su | e] eqn:Hsu.
    + rewrite <- app_assoc. by eapply path_done.
    + destruct (StatusUpdate_new_raises _ _ _ _ _ _ _ _ Hsu) as [loc ->].
      by eapply path_rejected.
  - rewrite Hrun. by eapply path_write_error.
Qed.

(** ** Which calls answer 404, and which failures leave the store alone *)


(** X2: a call that raises anything but a validation error has not
    changed the database: the guard, a malformed identifier, a missing
    application and a refused update all leave it as it was. *)
Theorem failure_leaves_database app_id action w e :
  (act_on_application app_id action w).1 = Raise e ->
  (forall loc, e <> ValidationError loc) ->
  db (act_on_application app_id action w).2 = db w.
Proof.
  pose proof (act_on_application_path app_id action w) as Hpath.
  destruct (act_on_application app_id action w) as [r w'].
  cbn [fst snd]. intros -> Hne.
  inversion Hpath; subst; try done.
  by destruct (Hne loc).
Qed.

Lemma failure_leaves_database_witness :
  (act_on_application "123" review world_S1).1 = Raise (InvalidId "123") /\
  (forall loc, InvalidId "123" <> ValidationError loc) /\
  db (act_on_application "123" review world_S1).2 = db world_S1.
Proof.
  split; [vm_compute; reflexivity |]. split; [discriminate |].
  apply (failure_leaves_database "123" review world_S1 (InvalidId "123"));
    [vm_compute; reflexivity | discriminate].
Defined.

(** ** The literals of the status update schema *)

Lemma Role_of_str_to_str s r : Role.of_str s = Some r -> Role.to_str r = s.
Proof.
  unfold Role.of_str. intros H. apply find_some in H as [_ H].
  by apply String.eqb_eq.
Qed.

Lemma Role_of_str_names s :
  In s (Role.to_str <$> Role.all) -> exists r, Role.of_str s = Some r.
Proof.
  cbn. intros H.
  repeat (destruct H as [<- | H]; [eexists; reflexivity |]). done.
Qed.

Lemma Action_of_str_to_str s a : Action.of_str s = Some a -> Action.to_str a = s.
Proof.
  unfold Action.of_str. intros H. apply find_some in H as [_ H].
  by apply String.eqb_eq.
Qed.

Lemma Action_of_str_names s :
  In s (Action.to_str <$> Action.all) -> exists a, Action.of_str s = Some a.
Proof.
  cbn. intros H.
  repeat (destruct H as [<- | H]; [eexists; reflexivity |]). done.
Qed.

Lemma to_str_in_names_role r : In (Role.to_str r) (Role.to_str <$> Role.all).
Proof. destruct r; cbn; tauto. Qed.

Lemma to_str_in_names_action a :
  In (Action.to_str a) (Action.to_str <$> Action.all).
Proof. destruct a; cbn; tauto. Qed.

Lemma StatusUpdate_new_accepts a r n act c t ca :
  (exists su, StatusUpdate_new a r n act c t ca = Ok su)
  <-> In r (Role.to_str <$> Role.all) /\ In act (Action.to_str <$> Action.all).
Proof.
  unfold StatusUpdate_new. split.
  - intros [su H].
    destruct (Role.of_str r) as [x |] eqn:Hr,
             (Action.of_str act) as [y |] eqn:Ha; try discriminate.
    apply Role_of_str_to_str in Hr as <-.
    apply Action_of_str_to_str in Ha as <-.
    split; [apply to_str_in_names_role | apply to_str_in_names_action].
  - intros [Hr Ha].
    destruct (Role_of_str_names _ Hr) as [x ->].
    destruct (Action_of_str_names _ Ha) as [y ->]. eauto.
Qed.

(** X3: a status update is built exactly when the role is one of the six
    roles and the action one of the six actions of the schema, whatever
    the other arguments; the update then carries every argument as given,
    and its stored form spells role and action with the strings given. *)
Theorem status_update_accepts_literals a r n act c t ca :
  ((exists su, StatusUpdate_new a r n act c t ca = Ok su)
   <-> In r ["student"; "coordinator"; "hod"; "registrar"; "admin";
             "superadmin"] /\
       In act ["submit"; "review"; "forward"; "approve"; "reject";
               "comment"]) /\
  (forall su,
     StatusUpdate_new a r n act c t ca = Ok su ->
     StatusUpdate.application_id su = a /\
     StatusUpdate.actor_name su = n /\
     StatusUpdate.comments su = c /\
     StatusUpdate.to_department su = t /\
     StatusUpdate.created_at su = ca /\
     serialize (EStatusUpdate su) !! "actor_role" = Some (VStr r) /\
     serialize (EStatusUpdate su) !! "action" = Some (VStr act)).
Proof.
  split; [apply StatusUpdate_new_accepts |].
  unfold StatusUpdate_new. intros su H.
  destruct (Role.of_str r) as [x |] eqn:Hr,
           (Action.of_str act) as [y |] eqn:Ha; try discriminate.
  injection H as <-. cbn [StatusUpdate.application_id StatusUpdate.actor_name
    StatusUpdate.comments StatusUpdate.to_department StatusUpdate.created_at
    StatusUpdate.actor_role StatusUpdate.action serialize].
  apply Role_of_str_to_str in Hr. apply Action_of_str_to_str in Ha.
  repeat split.
  - by rewrite lookup_insert_ne, lookup_insert_eq, Hr by done.
  - by rewrite !lookup_insert_ne, lookup_insert_eq, Ha by done.
Qed.

(** ** Approvals, rejections and the other actions, in general *)

(** X4: an approval or a rejection of an existing application changes
    its status and nothing else of it, whether or not the status update
    that follows is accepted: every other field, current_stage and
    route_history among them, is as before. *)
Theorem verdict_changes_status_only w app_id action doc s :
  stored_application w app_id = Some doc ->
  (ReviewAction.action action = "approve" /\ s = "approved") \/
  (ReviewAction.action action = "reject" /\ s = "rejected") ->
  exists doc',
    stored_application (act_on_application app_id action w).2 app_id
    = Some doc' /\
    doc_id doc' = doc_id doc /\
    doc_fields doc' !! "status" = Some (VStr s) /\
    (forall k, k <> "status" -> doc_fields doc' !! k = doc_fields doc !! k).
Proof.
  intros Hdoc Hs.
  destruct (verdict_outcome w app_id action doc s Hdoc Hs) as [Hstored _].
  eexists. split; [exact Hstored |]. cbn [doc_id doc_fields].
  split; [reflexivity |]. split; [apply lookup_insert_eq |].
  intros k Hk. by rewrite lookup_insert_ne.
Qed.

Lemma verdict_changes_status_only_witness :
  stored_application world_S1 id_S1 = Some doc_S1 /\
  exists doc',
    stored_application (act_on_application id_S1 approve_by_dean world_S1).2
      id_S1 = Some doc' /\
    doc_id doc' = doc_id doc_S1 /\
    doc_fields doc' !! "status" = Some (VStr "approved") /\
    (forall k, k <> "status" -> doc_fields doc' !! k = doc_fields doc_S1 !! k).
Proof.
  split; [vm_compute; reflexivity |].
  apply (verdict_changes_status_only world_S1 id_S1 approve_by_dean doc_S1
           "approved"); [vm_compute; reflexivity |].
  left. split; reflexivity.
Defined.

(** X5: an action that is none of forward, approve and reject, on an
    existing application, sets the stored status to "under_review" and
    changes nothing else of the application; the call returns, with that
    status and the stage, exactly when the role is one of the six roles
    and the action is "submit", "review" or "comment". *)
Theorem other_action_reviews w app_id action doc :
  stored_application w app_id = Some doc ->
  ReviewAction.action action <> "forward" ->
  ReviewAction.action action <> "approve" ->
  ReviewAction.action action <> "reject" ->
  stored_application (act_on_application app_id action w).2 app_id
  = Some (Document (doc_id doc)
            (<["status" := VStr "under_review"]> (doc_fields doc))) /\
  ((act_on_application app_id action w).1
   = Ok (<["id" := VStr app_id]>
         (<["status" := VStr "under_review"]>
         (<["current_stage" :=
              dict_get (as_dict doc) "current_stage" (VStr "coordinator")]>
            ∅)))
   <-> In (ReviewAction.actor_role action)
          ["student"; "coordinator"; "hod"; "registrar"; "admin";
           "superadmin"] /\
       In (ReviewAction.action action) ["submit"; "review"; "comment"]).
Proof.
  intros Hdoc H1 H2 H3.
  destruct (other_action_outcome w app_id action doc Hdoc H1 H2 H3)
    as [Hstored Hok].
  split; [exact Hstored |].
  pose proof (StatusUpdate_new_accepts app_id (ReviewAction.actor_role action)
                (ReviewAction.actor_name action) (ReviewAction.action action)
                (ReviewAction.comments action)
                (ReviewAction.to_department action) None) as Hacc.
  split.
  - intros Hrun.
    pose proof (act_on_application_outcome w app_id action doc) as Hout.
    rewrite (stage_update_other _ _ H1 H2 H3) in Hout.
    destruct (Hout _ Hdoc (apply_update_set_status _ _))
      as (st & st1 & _ & _ & _ & _ & Heq).
    rewrite Heq in Hrun.
    destruct (StatusUpdate_new _ _ _ _ _ _ _) as [su | e]; [| discriminate].
    destruct Hacc as [Hacc _]. destruct (Hacc (ex_intro _ su eq_refl))
      as [Hr Ha].
    split; [exact Hr |]. cbn in Ha. cbn. intuition congruence.
  - intros [Hr Ha]. destruct Hacc as [_ Hacc].
    assert (Ha' : In (ReviewAction.action action)
                    (Action.to_str <$> Action.all))
      by (cbn in *; tauto).
    destruct (Hacc (conj Hr Ha')) as [su Hsu]. by apply (Hok su).
Qed.

Lemma other_action_reviews_witness :
  stored_application world_S1 id_S1 = Some doc_S1 /\
  ReviewAction.action escalate <> "forward" /\
  ReviewAction.action escalate <> "approve" /\
  ReviewAction.action escalate <> "reject" /\
  stored_application (act_on_application id_S1 escalate world_S1).2 id_S1
  = Some (Document (doc_id doc_S1)
            (<["status" := VStr "under_review"]> (doc_fields doc_S1))) /\
  ((act_on_application id_S1 escalate world_S1).1
   = Ok (<["id" := VStr id_S1]>
         (<["status" := VStr "under_review"]>
         (<["current_stage" :=
              dict_get (as_dict doc_S1) "current_stage" (VStr "coordinator")]>
            ∅)))
   <-> In (ReviewAction.actor_role escalate)
          ["student"; "coordinator"; "hod"; "registrar"; "admin";
           "superadmin"] /\
       In (ReviewAction.action escalate) ["submit"; "review"; "comment"]).
Proof.
  split; [vm_compute; reflexivity |].
  split; [discriminate |]. split; [discriminate |]. split; [discriminate |].
  apply (other_action_reviews world_S1 id_S1 escalate doc_S1);
    [vm_compute; reflexivity | discriminate ..].
Defined.

(** ** What a call leaves alone *)

Lemma update_one_form st name q u st1 :
  update_one st name q u = Some st1 ->
  exists l', update_first q u (collection st name) = Some l' /\
             st1 = set_collection st name l'.
Proof.
  unfold update_one. destruct (update_first _ _ _) as [l' |]; [| discriminate].
  intros [= <-]. eauto.
Qed.

Lemma update_first_other_id oid oid' u l :
  oid <> oid' ->
  forall l',
    update_first [("_id", VOid oid)] u l = Some l' ->
    filter (fun d => query_matches [("_id", VOid oid')] d = true) l'
    = filter (fun d => query_matches [("_id", VOid oid')] d = true) l.
Proof.
  intros Hne. induction l as [| d l IH]; intros l'; cbn [update_first].
  - by intros [= <-].
  - rewrite query_matches_id.
    destruct (N.eqb_spec oid (doc_id d)) as [Hd | Hd].
    + destruct (apply_update u d) as [d' |] eqn:Hupd; [| discriminate].
      intros [= <-]. rewrite !filter_cons, !query_matches_id.
      rewrite (apply_update_id _ _ _ Hupd), <- Hd.
      destruct (N.eqb_spec oid' oid) as [-> | _]; [done |].
      by destruct (decide _).
    + destruct (update_first _ u l) as [l'' |]; [| discriminate].
      intros [= <-]. rewrite !filter_cons. rewrite (IH l'' eq_refl).
      reflexivity.
Qed.

Lemma update_one_other_id st oid oid' u st1 :
  oid <> oid' ->
  update_one st "application" [("_id", VOid oid)] u = Some st1 ->
  find_one st1 "application" [("_id", VOid oid')]
  = find_one st "application" [("_id", VOid oid')].
Proof.
  intros Hne Hrun.
  destruct (update_one_form _ _ _ _ _ Hrun) as (l' & Hl' & ->).
  unfold find_one, find. rewrite collection_set_eq.
  by rewrite (update_first_other_id _ _ _ _ Hne _ Hl').
Qed.



(** ** The status updates a call leaves *)

(** A call that returns went down the whole handler. *)
Lemma act_on_application_success app_id action w r w' :
  act_on_application app_id action w = (Ok r, w') ->
  exists st oid doc ns cs u doc' st1 su,
    db w = Some st /\ ObjectId_of_str app_id = Some oid /\
    find_one st "application" [("_id", VOid oid)] = Some doc /\
    stage_update action
      (dict_get (as_dict doc) "current_stage" (VStr "coordinator"))
    = (ns, cs, u) /\
    apply_update u doc = Some doc' /\
    update_one st "application" [("_id", VOid oid)] u = Some st1 /\
    StatusUpdate_new app_id (ReviewAction.actor_role action)
      (ReviewAction.actor_name action) (ReviewAction.action action)
      (ReviewAction.comments action) (ReviewAction.to_department action)
      None = Ok su /\
    r = <["id" := VStr app_id]>
        (<["status" := ns]> (<["current_stage" := cs]> ∅)) /\
    w' = mkWorld
           (Some (insert_one st1 "statusupdate"
                    (serialize (EStatusUpdate su))).2)
           (requests w
            ++ [UpdateOne "application" [("_id", VOid oid)] u;
                CreateDocument "statusupdate" (EStatusUpdate su)]).
Proof.
  intros Hrun.
  pose proof (act_on_application_path app_id action w) as Hpath.
  rewrite Hrun in Hpath. remember (Ok r, w') as res eqn:Hres.
  destruct Hpath; try discriminate.
  injection Hres as <- <-. by eexists _, _, _, _, _, _, _, _, _.
Qed.

(** A call that raises has left the database as it was, or has updated
    the application and then refused the status update. *)
Lemma act_on_application_failure app_id action w e :
  (act_on_application app_id action w).1 = Raise e ->
  db (act_on_application app_id action w).2 = db w \/
  exists st oid u st1 loc,
    db w = Some st /\
    update_one st "application" [("_id", VOid oid)] u = Some st1 /\
    db (act_on_application app_id action w).2 = Some st1 /\
    e = ValidationError loc.
Proof.
  pose proof (act_on_application_path app_id action w) as Hpath.
  remember (act_on_application app_id action w) as res eqn:Hres.
  destruct Hpath; cbn [fst snd db]; intros [= <-]; auto.
  right. by eexists _, _, _, _, _.
Qed.

Lemma collection_update_one_ne st name q u st1 name' :
  update_one st name q u = Some st1 -> name <> name' ->
  collection st1 name' = collection st name'.
Proof. intros H Hne. by apply (update_one_other _ _ _ _ _ _ H). Qed.

Lemma query_matches_application_id_str s s' d :
  doc_fields d !! "application_id" = Some (VStr s') ->
  query_matches [("application_id", VStr s)] d = String.eqb s s'.
Proof.
  intros H. rewrite query_matches_application_id, H.
  unfold value_matches. cbn [value_eqb]. apply orb_false_r.
Qed.



(** X8: a call that raises leaves every timeline as it was: for every
    identifier and every order of the sort keys, [get_timeline] answers
    after the call what it answered before. *)
Theorem failed_call_leaves_timelines app_id action w e leb x :
  (act_on_application app_id action w).1 = Raise e ->
  (get_timeline leb x (act_on_application app_id action w).2).1
  = (get_timeline leb x w).1.
Proof.
  intros Hrun.
  assert (Hsame : forall w1 w2 : World,
             (db w1 = db w2 \/
              exists st1 st2, db w1 = Some st1 /\ db w2 = Some st2 /\
                collection st1 "statusupdate" = collection st2 "statusupdate") ->
             (get_timeline leb x w1).1 = (get_timeline leb x w2).1).
  { intros [d1 rs1] [d2 rs2]. cbn [db].
    intros [-> | (st1 & st2 & -> & -> & Hcoll)]; [by destruct d2 |].
    unfold get_timeline, bind, read_db, ret. cbn [db fst]. unfold find.
    by rewrite Hcoll. }
  apply Hsame.
  destruct (act_on_application_failure _ _ _ _ Hrun)
    as [Hdb | (st & oid & u & st1 & loc & Hdb & Hone & Hdb' & _)];
    [by left | right].
  exists st1, st. split; [assumption |]. split; [assumption |].
  by apply (collection_update_one_ne _ _ _ _ _ "statusupdate" Hone).
Qed.

Lemma failed_call_leaves_timelines_witness :
  (act_on_application id_S1 approve_by_dean world_S1).1
  = Raise (ValidationError ["actor_role"]) /\
  (get_timeline instant_leb id_S1
     (act_on_application id_S1 approve_by_dean world_S1).2).1
  = (get_timeline instant_leb id_S1 world_S1).1.
Proof.
  assert (H : (act_on_application id_S1 approve_by_dean world_S1).1
              = Raise (ValidationError ["actor_role"]))
    by (vm_compute; reflexivity).
  split; [exact H |].
  apply (failed_call_leaves_timelines id_S1 approve_by_dean world_S1
           (ValidationError ["actor_role"]) instant_leb id_S1 H).
Defined.

(** ** What an update does to the application *)

Lemma application_evolves_refl doc : application_evolves doc doc.
Proof. split; [done |]. split; [| done]. intros h Hh. by exists h. Qed.

Lemma application_evolves_trans doc1 doc2 doc3 :
  application_evolves doc1 doc2 -> application_evolves doc2 doc3 ->
  application_evolves doc1 doc3.
Proof.
  intros (Hid1 & Hh1 & Hk1) (Hid2 & Hh2 & Hk2).
  split; [congruence |]. split.
  - intros h Hh. destruct (Hh1 h Hh) as (h' & Hh' & Hpre).
    destruct (Hh2 h' Hh') as (h'' & Hh'' & Hpre').
    exists h''. split; [assumption | by etrans].
  - intros k Hk. by rewrite Hk2, Hk1.
Qed.

Lemma apply_update_forward_fields doc s c doc' :
  apply_update
    (Update [("status", s); ("current_stage", c)] [("route_history", c)]) doc
  = Some doc' ->
  exists h,
    doc_fields doc'
    = <["route_history" := VArr (h ++ [c])]>
      (<["current_stage" := c]> (<["status" := s]> (doc_fields doc))) /\
    doc_id doc' = doc_id doc /\
    (doc_fields doc !! "route_history" = Some (VArr h) \/
     doc_fields doc !! "route_history" = None /\ h = []).
Proof.
  unfold apply_update.
  cbn [u_set u_push fold_left apply_push fst snd doc_fields].
  unfold apply_set. cbn [fst snd]. rewrite !lookup_insert_ne by done.
  destruct (doc_fields doc !! "route_history") as [[| | | | | h] |];
    try discriminate; intros [= <-]; cbn [doc_fields doc_id].
  - exists h. auto.
  - exists []. auto.
Qed.

(** The document after the update of a branch: its status is the new
    status; its stage is the stage answered when the action is a forward
    and is not written otherwise; its history has at most got longer at
    the end; nothing else has changed. *)
Lemma stage_update_effect action c ns cs u doc doc' :
  stage_update action c = (ns, cs, u) ->
  apply_update u doc = Some doc' ->
  application_evolves doc doc' /\
  doc_fields doc' !! "status" = Some ns /\
  (ReviewAction.action action = "forward" ->
   doc_fields doc' !! "current_stage" = Some cs) /\
  (ReviewAction.action action <> "forward" ->
   cs = c /\
   doc_fields doc' !! "current_stage" = doc_fields doc !! "current_stage").
Proof.
  intros Hst Hupd.
  destruct (stage_update_cases action c) as [[Hact Heq] | [Hact [s Heq]]];
    rewrite Heq in Hst; injection Hst as <- <- <-.
  - destruct (apply_update_forward_fields _ _ _ _ Hupd) as (h & Hf & Hid & Hh).
    unfold application_evolves. rewrite Hf.
    split; [split; [assumption |]; split |].
    + intros h0 Hh0. exists (h ++ [str_or (ReviewAction.to_department action) c]).
      rewrite lookup_insert_eq. split; [reflexivity |].
      destruct Hh as [Hh | [Hh _]]; [| congruence].
      rewrite Hh in Hh0. injection Hh0 as <-. by apply prefix_app_r.
    + intros k Hk. unfold workflow_fields in Hk. cbn in Hk.
      rewrite !lookup_insert_ne by tauto. reflexivity.
    + split; [by rewrite !lookup_insert_ne, lookup_insert_eq by done |].
      split; [| done]. intros _.
      by rewrite lookup_insert_ne, lookup_insert_eq by done.
  - rewrite apply_update_set_status in Hupd. injection Hupd as <-.
    unfold application_evolves. cbn [doc_fields doc_id].
    split; [split; [done |]; split |].
    + intros h Hh. exists h. by rewrite lookup_insert_ne.
    + intros k Hk. unfold workflow_fields in Hk. cbn in Hk.
      rewrite lookup_insert_ne by tauto. reflexivity.
    + split; [apply lookup_insert_eq |]. split; [done |]. intros _.
      split; [reflexivity |]. by rewrite lookup_insert_ne.
Qed.

Lemma act_on_application_success_stored app_id action w r w' :
  act_on_application app_id action w = (Ok r, w') ->
  exists doc doc' ns cs u,
    stored_application w app_id = Some doc /\
    stored_application w' app_id = Some doc' /\
    stage_update action
      (dict_get (as_dict doc) "current_stage" (VStr "coordinator"))
    = (ns, cs, u) /\
    apply_update u doc = Some doc' /\
    r = <["id" := VStr app_id]>
        (<["status" := ns]> (<["current_stage" := cs]> ∅)).
Proof.
  intros Hrun.
  destruct (act_on_application_success _ _ _ _ _ Hrun)
    as (st & oid & doc & ns & cs & u & doc' & st1 & su & Hdb & Hoid & Hfind
        & Hst & Hupd & Hone & Hsu & -> & ->).
  exists doc, doc', ns, cs, u.
  unfold stored_application. rewrite Hdb, Hoid. cbn [db].
  split; [assumption |]. split; [| done].
  rewrite find_one_insert_ne by done.
  destruct (update_one_apply _ _ _ _ _ _ Hfind Hupd) as (st1' & Hone' & Hf & _).
  congruence.
Qed.

(** X9: the answer of a successful call reports what is stored: its id
    is the identifier given, its status is the status of the application
    as stored after the call, and, for an application that had a
    current_stage, its current_stage is the one stored after the call. *)
Theorem response_reports_stored app_id action w r w' :
  act_on_application app_id action w = (Ok r, w') ->
  r !! "id" = Some (VStr app_id) /\
  is_Some (r !! "status") /\
  application_field w' app_id "status" = r !! "status" /\
  (is_Some (application_field w app_id "current_stage") ->
   application_field w' app_id "current_stage" = r !! "current_stage").
Proof.
  intros Hrun.
  destruct (act_on_application_success_stored _ _ _ _ _ Hrun)
    as (doc & doc' & ns & cs & u & Hdoc & Hdoc' & Hst & Hupd & ->).
  destruct (stage_update_effect _ _ _ _ _ _ _ Hst Hupd)
    as (_ & Hstatus & Hfwd & Hother).
  unfold application_field. rewrite Hdoc, Hdoc'.
  rewrite lookup_insert_eq.
  rewrite (lookup_insert_ne _ "id" "status"), lookup_insert_eq by done.
  rewrite !(lookup_insert_ne _ _ "current_stage"), lookup_insert_eq by done.
  split; [reflexivity |]. split; [by eexists |]. split; [assumption |].
  intros [v Hv].
  destruct (String.eqb_spec (ReviewAction.action action) "forward")
    as [Hact | Hact]; [by apply Hfwd |].
  destruct (Hother Hact) as [-> ->].
  by rewrite (dict_get_field doc "current_stage" v).
Qed.

Lemma response_reports_stored_witness :
  exists r w',
    act_on_application id_S1 forward_hod world_S1 = (Ok r, w') /\
    r !! "id" = Some (VStr id_S1) /\
    is_Some (r !! "status") /\
    application_field w' id_S1 "status" = r !! "status" /\
    (is_Some (application_field world_S1 id_S1 "current_stage") ->
     application_field w' id_S1 "current_stage" = r !! "current_stage").
Proof.
  exists (<["id" := VStr id_S1]>
          (<["status" := VStr "forwarded"]>
          (<["current_stage" := VStr "hod"]> ∅))),
         (act_on_application id_S1 forward_hod world_S1).2.
  assert (Hrun : act_on_application id_S1 forward_hod world_S1
                 = (Ok (<["id" := VStr id_S1]>
                        (<["status" := VStr "forwarded"]>
                        (<["current_stage" := VStr "hod"]> ∅))),
                    (act_on_application id_S1 forward_hod world_S1).2))
    by (vm_compute; reflexivity).
  split; [exact Hrun |].
  apply (response_reports_stored _ _ _ _ _ Hrun).
Defined.

(** ** How the database changes under any sequence of requests *)

Lemma evolves_refl st : evolves st st.
Proof.
  split; [lia |]. split; [done |].
  intros oid doc H. exists doc. split; [assumption | apply application_evolves_refl].
Qed.

Lemma evolves_trans st1 st2 st3 :
  evolves st1 st2 -> evolves st2 st3 -> evolves st1 st3.
Proof.
  intros (Hn1 & Hc1 & Ha1) (Hn2 & Hc2 & Ha2).
  split; [lia |]. split.
  - intros name Hname. etrans; [by apply Hc1 | by apply Hc2].
  - intros oid doc Hdoc. destruct (Ha1 _ _ Hdoc) as (doc' & Hdoc' & He1).
    destruct (Ha2 _ _ Hdoc') as (doc'' & Hdoc'' & He2).
    exists doc''. split; [assumption |].
    by apply (application_evolves_trans _ doc').
Qed.

Lemma head_filter_app_l {A} (P : A -> bool) (l1 l2 : list A) (x : A) :
  head (filter (fun a => P a = true) l1) = Some x ->
  head (filter (fun a => P a = true) (l1 ++ l2)) = Some x.
Proof.
  rewrite filter_app. by destruct (filter _ l1).
Qed.

Lemma insert_one_evolves st name d : evolves st (insert_one st name d).2.
Proof.
  split; [cbn; lia |]. split.
  - intros name' _. destruct (decide (name = name')) as [<- | Hne].
    + rewrite collection_insert_eq. by apply prefix_app_r.
    + by rewrite collection_insert_ne.
  - intros oid doc Hdoc. exists doc.
    split; [| apply application_evolves_refl].
    destruct (decide (name = "application")) as [-> | Hne].
    + unfold find_one, find in *. rewrite collection_insert_eq.
      by apply head_filter_app_l.
    + by rewrite find_one_insert_ne.
Qed.

Lemma update_one_evolves st oid u st1 action c ns cs doc :
  find_one st "application" [("_id", VOid oid)] = Some doc ->
  stage_update action c = (ns, cs, u) ->
  update_one st "application" [("_id", VOid oid)] u = Some st1 ->
  evolves st st1.
Proof.
  intros Hfind Hst Hone.
  destruct (update_one_found _ _ _ u _ Hfind) as (l1 & l2 & _ & _ & _ & Hrun).
  rewrite Hone in Hrun.
  destruct (apply_update u doc) as [doc' |] eqn:Hupd; [| discriminate].
  destruct (update_one_apply _ _ _ _ _ _ Hfind Hupd)
    as (st1' & Hone' & Hfind1 & Hnext & Hother).
  assert (st1' = st1) as -> by congruence.
  split; [lia |]. split.
  - intros name Hname. by rewrite Hother.
  - intros oid0 doc0 Hdoc0.
    destruct (N.eq_dec oid oid0) as [<- | Hne].
    + assert (doc0 = doc) as -> by congruence.
      exists doc'. split; [assumption |].
      by destruct (stage_update_effect _ _ _ _ _ _ _ Hst Hupd).
    + exists doc0. split; [| apply application_evolves_refl].
      by rewrite (update_one_other_id _ _ _ _ _ Hne Hone).
Qed.

Lemma act_on_application_evolves app_id action st rs :
  exists st',
    db (act_on_application app_id action (mkWorld (Some st) rs)).2 = Some st' /\
    evolves st st'.
Proof.
  pose proof (act_on_application_path app_id action (mkWorld (Some st) rs))
    as Hpath.
  remember (act_on_application app_id action _) as res eqn:Hres.
  destruct Hpath as [Hdb | st0 Hdb | st0 oid Hdb | st0 oid doc ns cs u Hdb
                     | st0 oid doc ns cs u doc' st1 loc Hdb Hoid Hfind Hst Hupd
                         Hone
                     | st0 oid doc ns cs u doc' st1 su Hdb Hoid Hfind Hst Hupd
                         Hone];
    cbn [db snd] in *; try discriminate; injection Hdb as <-;
    try (exists st; split; [reflexivity | apply evolves_refl]).
  - exists st1. split; [reflexivity |].
    by apply (update_one_evolves _ _ _ _ _ _ _ _ _ Hfind Hst Hone).
  - eexists. split; [reflexivity |].
    eapply evolves_trans;
      [by apply (update_one_evolves _ _ _ _ _ _ _ _ _ Hfind Hst Hone)
      | apply insert_one_evolves].
Qed.

Lemma handle_evolves leb st rs r :
  exists st',
    db (handle leb (mkWorld (Some st) rs) r) = Some st' /\ evolves st st'.
Proof.
  destruct r as [dept | | app_data | app_id action | app_id]; cbn [handle].
  - rewrite create_department_run. cbn [snd db]. eexists.
    split; [reflexivity | apply insert_one_evolves].
  - rewrite list_departments_run. exists st. split; [done | apply evolves_refl].
  - rewrite submit_application_run. cbv zeta. cbn [snd db]. eexists.
    split; [reflexivity |].
    eapply evolves_trans; apply insert_one_evolves.
  - apply act_on_application_evolves.
  - exists st. split; [done | apply evolves_refl].
Qed.

Lemma serve_evolves leb reqs :
  forall st rs,
    exists st',
      db (serve leb (mkWorld (Some st) rs) reqs) = Some st' /\ evolves st st'.
Proof.
  induction reqs as [| r reqs IH]; intros st rs.
  - exists st. split; [done | apply evolves_refl].
  - unfold serve. cbn [foldl].
    destruct (handle_evolves leb st rs r) as (st1 & Hdb1 & He1).
    destruct (handle leb (mkWorld (Some st) rs) r) as [d1 rs1].
    cbn [db] in Hdb1. subst d1.
    destruct (IH st1 rs1) as (st' & Hdb' & He').
    exists st'. split; [exact Hdb' | by apply (evolves_trans _ st1)].
Qed.

(** X10: status updates, and the documents of every collection but the
    applications, are never changed, removed or reordered: after any
    sequence of requests each such collection is what it was, followed
    by what was added. *)
Theorem audit_trail_is_append_only leb st rs reqs :
  exists st',
    db (serve leb (mkWorld (Some st) rs) reqs) = Some st' /\
    collection st "statusupdate" `prefix_of` collection st' "statusupdate" /\
    collection st "department" `prefix_of` collection st' "department" /\
    collection st "user" `prefix_of` collection st' "user" /\
    collection st "notification" `prefix_of` collection st' "notification".
Proof.
  destruct (serve_evolves leb reqs st rs) as (st' & Hdb & _ & Hcoll & _).
  exists st'. split; [assumption |]. repeat split; by apply Hcoll.
Qed.

(** X11: an application, once stored, stays: after any sequence of
    requests it is still found under its identifier; its route history
    is the old one, possibly with stages appended; and every field other
    than status, current_stage and route_history is as it was. *)
Theorem application_persists leb st rs reqs oid doc :
  find_one st "application" [("_id", VOid oid)] = Some doc ->
  exists st' doc',
    db (serve leb (mkWorld (Some st) rs) reqs) = Some st' /\
    find_one st' "application" [("_id", VOid oid)] = Some doc' /\
    doc_id doc' = doc_id doc /\
    (forall h, doc_fields doc !! "route_history" = Some (VArr h) ->
               exists h', doc_fields doc' !! "route_history" = Some (VArr h') /\
                          h `prefix_of` h') /\
    (forall k, k <> "status" -> k <> "current_stage" -> k <> "route_history" ->
               doc_fields doc' !! k = doc_fields doc !! k).
Proof.
  intros Hdoc.
  destruct (serve_evolves leb reqs st rs) as (st' & Hdb & _ & _ & Happ).
  destruct (Happ _ _ Hdoc) as (doc' & Hdoc' & Hid & Hh & Hk).
  exists st', doc'. repeat split; try assumption.
  intros k H1 H2 H3. apply Hk. unfold workflow_fields. cbn.
  intuition congruence.
Qed.

Lemma application_persists_witness :
  find_one db_S1 "application" [("_id", VOid 0%N)] = Some doc_S1 /\
  exists st' doc',
    db (serve instant_leb (mkWorld (Some db_S1) [])
          [ActOnApplication id_S1 forward_hod;
           SubmitApplication leave_S1_preapproved;
           ActOnApplication id_S1 approve_by_dean]) = Some st' /\
    find_one st' "application" [("_id", VOid 0%N)] = Some doc' /\
    doc_id doc' = doc_id doc_S1 /\
    (forall h, doc_fields doc_S1 !! "route_history" = Some (VArr h) ->
               exists h', doc_fields doc' !! "route_history" = Some (VArr h') /\
                          h `prefix_of` h') /\
    (forall k, k <> "status" -> k <> "current_stage" -> k <> "route_history" ->
               doc_fields doc' !! k = doc_fields doc_S1 !! k).
Proof.
  assert (H : find_one db_S1 "application" [("_id", VOid 0%N)] = Some doc_S1)
    by (vm_compute; reflexivity).
  split; [exact H |].
  apply (application_persists instant_leb db_S1 [] _ 0%N doc_S1 H).
Defined.

(** X12: identifiers are not given twice: two submissions, with any
    requests served between them, are answered with different ids. *)
Theorem submissions_get_distinct_ids leb st rs app1 reqs app2 :
  exists id1 id2,
    (submit_application app1 (mkWorld (Some st) rs)).1
    = Ok (<["id" := VStr id1]> (<["status" := VStr "submitted"]> ∅)) /\
    (submit_application app2
       (serve leb (submit_application app1 (mkWorld (Some st) rs)).2 reqs)).1
    = Ok (<["id" := VStr id2]> (<["status" := VStr "submitted"]> ∅)) /\
    id1 <> id2.
Proof.
  rewrite submit_application_run. cbv zeta. cbn [fst snd].
  match goal with
  | |- context [serve leb (mkWorld (Some ?s) ?r) reqs] =>
      destruct (serve_evolves leb reqs s r) as (st' & Hdb & Hnext & _);
      destruct (serve leb (mkWorld (Some s) r) reqs) as [d' rs']
  end.
  cbn [db] in Hdb. subst d'. rewrite submit_application_run. cbv zeta.
  cbn [fst]. eexists _, _. split; [reflexivity |]. split; [reflexivity |].
  intros Heq. apply ObjectId_str_inj in Heq. cbn in Hnext. lia.
Qed.

(** ** The identifier a submission answers *)

Lemma length_hex_acc k :
  forall n acc, String.length (hex_acc k n acc) = (k + String.length acc)%nat.
Proof.
  induction k as [| k IH]; intros n acc; [reflexivity |].
  cbn [hex_acc]. rewrite IH. cbn [String.length]. lia.
Qed.

Lemma hex_width_12_bytes n : (n < 2 ^ 96)%N -> hex_width n = 24%nat.
Proof.
  intros Hn. unfold hex_width.
  assert (Hlog : (N.log2 n < 96)%N).
  { destruct (N.eq_dec n 0%N) as [-> | Hnz]; [reflexivity |].
    apply N.log2_lt_pow2; lia. }
  assert (Hdiv : (N.log2 n / 4 < 24)%N)
    by (apply N.Div0.div_lt_upper_bound; lia).
  lia.
Qed.

(** The spelling of a 12-byte identifier is read back as the identifier. *)
Lemma ObjectId_of_str_str n :
  (n < 2 ^ 96)%N -> ObjectId_of_str (ObjectId_str n) = Some n.
Proof.
  intros Hn. unfold ObjectId_of_str.
  replace (String.length (ObjectId_str n)) with 24%nat.
  - cbn [Nat.eqb]. apply hex_value_ObjectId_str.
  - unfold ObjectId_str. rewrite length_hex_acc, hex_width_12_bytes by done.
    reflexivity.
Qed.

Lemma find_one_fresh_insert st name d :
  ids_generated st ->
  find_one (insert_one st name d).2 name [("_id", VOid (next_oid st))]
  = Some (Document (next_oid st) d).
Proof.
  intros Hids. unfold find_one, find. rewrite collection_insert_eq.
  apply head_filter_app.
  - eapply Forall_impl; [apply (Hids name) |].
    intros doc Hlt. rewrite query_matches_id. apply N.eqb_neq. cbn beta in Hlt.
    lia.
  - rewrite query_matches_id. apply N.eqb_refl.
Qed.

(** X13: the id that a submission answers refers to the application it
    stored: in a database whose identifiers were generated by the store,
    the application found under that id is the payload as serialized,
    and an action call on that id does not answer 404. *)
Theorem submitted_application_is_found app_data st rs :
  ids_generated st -> (next_oid st < 2 ^ 96)%N ->
  exists inserted_id,
    (submit_application app_data (mkWorld (Some st) rs)).1
    = Ok (<["id" := VStr inserted_id]> (<["status" := VStr "submitted"]> ∅)) /\
    stored_application (submit_application app_data (mkWorld (Some st) rs)).2
      inserted_id
    = Some (Document (next_oid st) (serialize (EApplication app_data))) /\
    (forall action,
       (act_on_application inserted_id action
          (submit_application app_data (mkWorld (Some st) rs)).2).1
       <> Raise (HTTPException 404 "Application not found")).
Proof.
  intros Hids Hn. rewrite submit_application_run. cbv zeta. cbn [fst snd].
  exists (ObjectId_str (next_oid st)). split; [reflexivity |].
  assert (Hstored :
            stored_application
              (mkWorld
                 (Some (insert_one
                          (insert_one st "application"
                             (serialize (EApplication app_data))).2
                          "statusupdate"
                          (serialize
                             (EStatusUpdate
                                (submit_update app_data
                                   (ObjectId_str (next_oid st)))))).2)
                 ((rs ++ [CreateDocument "application" (EApplication app_data)])
                  ++ [CreateDocument "statusupdate"
                        (EStatusUpdate
                           (submit_update app_data
                              (ObjectId_str (next_oid st))))]))
              (ObjectId_str (next_oid st))
            = Some (Document (next_oid st) (serialize (EApplication app_data)))).
  { unfold stored_application. cbn [db].
    rewrite ObjectId_of_str_str by assumption.
    rewrite find_one_insert_ne by done. by apply find_one_fresh_insert. }
  split; [exact Hstored |].
  intros action Hrun.
  pose proof (act_on_application_path (ObjectId_str (next_oid st)) action
                (mkWorld
                   (Some (insert_one
                            (insert_one st "application"
                               (serialize (EApplication app_data))).2
                            "statusupdate"
                            (serialize
                               (EStatusUpdate
                                  (submit_update app_data
                                     (ObjectId_str (next_oid st)))))).2)
                   ((rs ++ [CreateDocument "application"
                              (EApplication app_data)])
                    ++ [CreateDocument "statusupdate"
                          (EStatusUpdate
                             (submit_update app_data
                                (ObjectId_str (next_oid st))))]))) as Hpath.
  remember (act_on_application _ _ _) as res eqn:Hres.
  unfold stored_application in Hstored. cbn [db] in Hstored.
  destruct Hpath as [Hdb | st0 Hdb | st0 oid Hdb Hoid Hfind | | |];
    cbn [fst] in Hrun; try discriminate.
  cbn [db] in Hdb. injection Hdb as <-. rewrite Hoid in Hstored.
  discriminate (eq_trans (eq_sym Hstored) Hfind).
Qed.

Lemma ids_generated_db_S1 : ids_generated db_S1.
Proof.
  unfold db_S1. apply insert_one_ids, insert_one_ids.
  exact (proj1 store_inv_empty).
Qed.

Lemma submitted_application_is_found_witness :
  ids_generated db_S1 /\ (next_oid db_S1 < 2 ^ 96)%N /\
  exists inserted_id,
    (submit_application leave_S1_preapproved (mkWorld (Some db_S1) [])).1
    = Ok (<["id" := VStr inserted_id]> (<["status" := VStr "submitted"]> ∅)) /\
    stored_application
      (submit_application leave_S1_preapproved (mkWorld (Some db_S1) [])).2
      inserted_id
    = Some (Document (next_oid db_S1)
              (serialize (EApplication leave_S1_preapproved))) /\
    (forall action,
       (act_on_application inserted_id action
          (submit_application leave_S1_preapproved
             (mkWorld (Some db_S1) [])).2).1
       <> Raise (HTTPException 404 "Application not found")).
Proof.
  assert (Hn : (next_oid db_S1 < 2 ^ 96)%N) by (vm_compute; reflexivity).
  split; [exact ids_generated_db_S1 |]. split; [exact Hn |].
  apply (submitted_application_is_found leave_S1_preapproved db_S1 []
           ids_generated_db_S1 Hn).
Defined.

(** ** The listings *)

Lemma list_applications_run a b c d st rs :
  list_applications a b c d (mkWorld (Some st) rs)
  = (Ok (to_public <$>
           find st "application"
             (filter_on "category" d
                (filter_on "status" c
                   (filter_on "department_code" b
                      (filter_on "student_id" a []))))),
     mkWorld (Some st) rs).
Proof. reflexivity. Qed.

Lemma filter_on_nonblank k o filt :
  filter_on k (nonblank o) filt = filter_on k o filt.
Proof. by destruct o as [[| ch s] |]. Qed.

(** X14: an empty string given as a filter is no filter.  The listing of
    applications answers to empty parameters what it answers when they
    are absent, and the listing of notifications to an empty user_email
    what it answers without one; with a database and nothing but empty
    parameters, every application, and every notification, is listed. *)
Theorem blank_filters_are_no_filters a b c d e w :
  list_applications a b c d w
  = list_applications (nonblank a) (nonblank b) (nonblank c) (nonblank d) w /\
  list_notifications e w = list_notifications (nonblank e) w /\
  (forall st rs,
     list_applications (Some "") (Some "") (Some "") (Some "")
       (mkWorld (Some st) rs)
     = (Ok (to_public <$> collection st "application"), mkWorld (Some st) rs) /\
     list_notifications (Some "") (mkWorld (Some st) rs)
     = (Ok (to_public <$> collection st "notification"),
        mkWorld (Some st) rs)).
Proof.
  split; [| split].
  - unfold list_applications. cbv zeta. by rewrite !filter_on_nonblank.
  - by destruct e as [[| ch s] |].
  - intros st rs. split.
    + rewrite list_applications_run. cbn [filter_on]. by rewrite find_all.
    + unfold list_notifications, bind, get_documents, ret. cbn [db].
      by rewrite find_all.
Qed.

Lemma query_matches_app q1 q2 doc :
  query_matches (q1 ++ q2) doc = query_matches q1 doc && query_matches q2 doc.
Proof. unfold query_matches. apply forallb_app. Qed.

Lemma query_matches_filter_on k s filt doc :
  k <> "_id" ->
  doc_fields doc !! k = Some (VStr s) ->
  query_matches (filter_on k (Some s) filt) doc = query_matches filt doc.
Proof.
  intros Hk Hs. destruct s as [| ch s]; [reflexivity |]. cbn [filter_on].
  rewrite query_matches_app.
  unfold query_matches at 2, field_matches. cbn [forallb fst snd].
  rewrite as_dict_field, Hs by done.
  unfold value_matches. cbn [value_eqb]. rewrite String.eqb_refl.
  by rewrite !andb_true_r.
Qed.

Lemma serialize_application_ids a :
  serialize (EApplication a) !! "_id" = None /\
  serialize (EApplication a) !! "id" = None.
Proof.
  cbn [serialize]. split; by rewrite !lookup_insert_ne, lookup_empty by done.
Qed.

(** X15: a submitted application is listed.  With a database, after a
    submission, the listing filtered by the student_id, the
    department_code, the status and the category of the payload has an
    entry whose id is the id the submission answered, which has no _id
    and whose other fields are those of the payload. *)
Theorem submitted_application_is_listed app_data st rs :
  exists inserted_id entries,
    (submit_application app_data (mkWorld (Some st) rs)).1
    = Ok (<["id" := VStr inserted_id]> (<["status" := VStr "submitted"]> ∅)) /\
    (list_applications
       (Some (Application.student_id app_data))
       (Some (Application.department_code app_data))
       (Some (Status.to_str (Application.status app_data)))
       (Some (Category.to_str (Application.category app_data)))
       (submit_application app_data (mkWorld (Some st) rs)).2).1
    = Ok entries /\
    exists e, e ∈ entries /\
              e !! "id" = Some (VStr inserted_id) /\
              e !! "_id" = None /\
              delete "id" e = serialize (EApplication app_data).
Proof.
  rewrite submit_application_run. cbv zeta. cbn [fst snd].
  rewrite list_applications_run. cbn [fst].
  eexists _, _. split; [reflexivity |]. split; [reflexivity |].
  exists (to_public (Document (next_oid st) (serialize (EApplication app_data)))).
  split.
  - apply list_elem_of_fmap_2. unfold find. apply list_elem_of_filter. split.
    + rewrite !query_matches_filter_on; try done; cbn [doc_fields serialize];
        by repeat (rewrite lookup_insert_ne by done); rewrite lookup_insert_eq.
    + rewrite collection_insert_ne by done. rewrite collection_insert_eq.
      apply elem_of_app. right. by apply list_elem_of_singleton.
  - split; [apply to_public_id |]. split; [apply to_public_internal_id |].
    rewrite to_public_eq. cbn [doc_id doc_fields].
    destruct (serialize_application_ids app_data) as [H1 H2].
    rewrite delete_insert_eq. rewrite (delete_id _ "_id") by exact H1.
    by apply delete_id.
Qed.

(** X16: an approved application is listed as approved.  After a
    successful approval, the listing filtered by status "approved" has
    an entry with the identifier of the application and the status
    "approved". *)
Theorem approved_application_is_listed app_id action w r w' :
  act_on_application app_id action w = (Ok r, w') ->
  ReviewAction.action action = "approve" ->
  exists oid entries e,
    ObjectId_of_str app_id = Some oid /\
    (list_applications None None (Some "approved") None w').1 = Ok entries /\
    e ∈ entries /\
    e !! "id" = Some (VStr (ObjectId_str oid)) /\
    e !! "status" = Some (VStr "approved").
Proof.
  intros Hrun Hact.
  destruct (act_on_application_success _ _ _ _ _ Hrun)
    as (st & oid & doc & ns & cs & u & doc' & st1 & su & Hdb & Hoid & Hfind
        & Hst & Hupd & Hone & Hsu & -> & ->).
  destruct (stage_update_effect _ _ _ _ _ _ _ Hst Hupd)
    as ((Hid & _) & Hstatus & _).
  assert (Hns : ns = VStr "approved").
  { unfold stage_update in Hst. rewrite Hact in Hst. cbn in Hst. congruence. }
  subst ns.
  destruct (update_one_apply _ _ _ _ _ _ Hfind Hupd)
    as (st1' & Hone' & Hfind1 & _).
  assert (st1' = st1) as -> by congruence.
  destruct (find_one_elem _ _ _ _ Hfind1) as [Hin Hm].
  rewrite query_matches_id in Hm. apply N.eqb_eq in Hm.
  rewrite list_applications_run. cbn [fst filter_on app].
  exists oid. eexists. exists (to_public doc').
  split; [assumption |]. split; [reflexivity |]. split.
  - apply list_elem_of_fmap_2. unfold find. apply list_elem_of_filter. split.
    + unfold query_matches, field_matches. cbn [forallb fst snd].
      rewrite as_dict_field, Hstatus by done.
      unfold value_matches. by cbn.
    + by rewrite collection_insert_ne.
  - split; [by rewrite to_public_id, Hm |].
    by rewrite to_public_field.
Qed.

Lemma approved_application_is_listed_witness :
  exists r w',
    act_on_application id_S1 approve_by_hod world_S1 = (Ok r, w') /\
    ReviewAction.action approve_by_hod = "approve" /\
    exists oid entries e,
      ObjectId_of_str id_S1 = Some oid /\
      (list_applications None None (Some "approved") None w').1 = Ok entries /\
      e ∈ entries /\
      e !! "id" = Some (VStr (ObjectId_str oid)) /\
      e !! "status" = Some (VStr "approved").
Proof.
  exists (<["id" := VStr id_S1]>
          (<["status" := VStr "approved"]>
          (<["current_stage" := VStr "coordinator"]> ∅))),
         (act_on_application id_S1 approve_by_hod world_S1).2.
  assert (Hrun : act_on_application id_S1 approve_by_hod world_S1
                 = (Ok (<["id" := VStr id_S1]>
                        (<["status" := VStr "approved"]>
                        (<["current_stage" := VStr "coordinator"]> ∅))),
                    (act_on_application id_S1 approve_by_hod world_S1).2))
    by (vm_compute; reflexivity).
  split; [exact Hrun |]. split; [reflexivity |].
  apply (approved_application_is_listed _ _ _ _ _ Hrun eq_refl).
Defined.

Lemma public_entries_to_public docs : public_entries (Ok (to_public <$> docs)).
Proof.
  cbn. apply Forall_fmap, Forall_forall. intros doc _. cbn.
  split; [apply to_public_internal_id |].
  exists (doc_id doc). apply to_public_id.
Qed.

(** X17: no listing shows the identifier of the store.  Whatever the
    world and the parameters, the listings of users, applications,
    notifications and departments and the timeline answer entries that
    each have an [id], the spelling of an identifier, and no [_id]; they
    fail only for want of a database. *)
Theorem listings_show_public_ids w leb a b c d e x :
  public_entries (list_users w).1 /\
  public_entries (list_applications a b c d w).1 /\
  public_entries (list_notifications e w).1 /\
  public_entries (list_departments w).1 /\
  public_entries (get_timeline leb x w).1.
Proof.
  destruct w as [[st |] rs].
  - rewrite list_applications_run, list_departments_run.
    repeat split; apply public_entries_to_public.
  - repeat split; cbn; auto.
Qed.

(** ** The timeline after a call *)

Lemma get_timeline_run leb x st rs :
  get_timeline leb x (mkWorld (Some st) rs)
  = (Ok (to_public <$>
           cursor_sort leb "created_at"
             (find st "statusupdate" [("application_id", VStr x)])),
     mkWorld (Some st) rs).
Proof. reflexivity. Qed.

Lemma act_on_application_success_updates app_id action w r w' :
  act_on_application app_id action w = (Ok r, w') ->
  exists st st' su o rs rs',
    w = mkWorld (Some st) rs /\ w' = mkWorld (Some st') rs' /\
    collection st' "statusupdate"
    = collection st "statusupdate" ++ [Document o (serialize (EStatusUpdate su))]
    /\ StatusUpdate.application_id su = app_id.
Proof.
  intros Hrun.
  destruct (act_on_application_success _ _ _ _ _ Hrun)
    as (st & oid & doc & ns & cs & u & doc' & st1 & su & Hdb & Hoid & Hfind
        & Hst & Hupd & Hone & Hsu & -> & ->).
  destruct w as [d rs]. cbn [db] in Hdb. subst d.
  exists st. eexists. exists su, (next_oid st1), rs. eexists.
  split; [reflexivity |]. split; [reflexivity |].
  rewrite collection_insert_eq.
  rewrite (collection_update_one_ne _ _ _ _ _ "statusupdate" Hone) by done.
  split; [reflexivity |]. by apply StatusUpdate_new_application_id in Hsu.
Qed.

(** X18: a successful call lengthens the timeline of its identifier by
    one entry and leaves the timeline of every other identifier as it
    was, whatever the order of the sort keys. *)
Theorem success_extends_timeline leb app_id action w r w' :
  act_on_application app_id action w = (Ok r, w') ->
  exists l l',
    (get_timeline leb app_id w).1 = Ok l /\
    (get_timeline leb app_id w').1 = Ok l' /\
    length l' = S (length l) /\
    (forall x, x <> app_id ->
               (get_timeline leb x w').1 = (get_timeline leb x w).1).
Proof.
  intros Hrun.
  destruct (act_on_application_success_updates _ _ _ _ _ Hrun)
    as (st & st' & su & o & rs & rs' & -> & -> & Hcoll & Hid).
  assert (Hfield : doc_fields (Document o (serialize (EStatusUpdate su)))
                   !! "application_id" = Some (VStr app_id)).
  { cbn [doc_fields serialize]. by rewrite lookup_insert_eq, Hid. }
  rewrite !get_timeline_run. cbn [fst]. eexists _, _.
  split; [reflexivity |]. split; [reflexivity |]. split.
  - rewrite !length_fmap.
    rewrite !(Permutation_length (cursor_sort_Permutation leb _ _)).
    unfold find. rewrite Hcoll, filter_app, filter_cons, filter_nil.
    rewrite (query_matches_application_id_str _ _ _ Hfield).
    rewrite String.eqb_refl. destruct (decide _); [| done].
    rewrite length_app. cbn. lia.
  - intros x Hx. rewrite !get_timeline_run. cbn [fst]. unfold find.
    rewrite Hcoll, filter_app, filter_cons, filter_nil.
    rewrite (query_matches_application_id_str _ _ _ Hfield).
    apply String.eqb_neq in Hx. rewrite Hx.
    destruct (decide _); [done |]. by rewrite app_nil_r.
Qed.

Lemma success_extends_timeline_witness :
  exists r w',
    act_on_application id_S1 approve_by_hod world_S1 = (Ok r, w') /\
    exists l l',
      (get_timeline instant_leb id_S1 world_S1).1 = Ok l /\
      (get_timeline instant_leb id_S1 w').1 = Ok l' /\
      length l' = S (length l) /\
      (forall x, x <> id_S1 ->
                 (get_timeline instant_leb x w').1
                 = (get_timeline instant_leb x world_S1).1).
Proof.
  exists (<["id" := VStr id_S1]>
          (<["status" := VStr "approved"]>
          (<["current_stage" := VStr "coordinator"]> ∅))),
         (act_on_application id_S1 approve_by_hod world_S1).2.
  assert (Hrun : act_on_application id_S1 approve_by_hod world_S1
                 = (Ok (<["id" := VStr id_S1]>
                        (<["status" := VStr "approved"]>
                        (<["current_stage" := VStr "coordinator"]> ∅))),
                    (act_on_application id_S1 approve_by_hod world_S1).2))
    by (vm_compute; reflexivity).
  split; [exact Hrun |].
  apply (success_extends_timeline instant_leb _ _ _ _ _ Hrun).
Defined.
